(** * Junebug channels: a shallow embedding of [junebug/channel.py]

    The development has two parts.

    - [Translator]: the two message translators [message_from_api] and
      [api_from_message].  Python dictionaries are objects that are shared
      by reference, and both translators write into dictionaries they were
      handed, so the messages live in an explicit heap of objects.

    - [Chan]: the [Channel] class.  The channel object, the redis store and
      the service hierarchy are threaded through a state-and-exception
      monad; an exception keeps every write made before it was raised. *)

From Stdlib Require Import ZArith Lia.
From stdpp Require Import base option list gmap strings.

Open Scope string_scope.
Open Scope list_scope.
Set Warnings "-register-all,-clear-no-such-hyp".

(** ** Python values *)

(** JSON-shaped data with value semantics: channel properties and worker
    configurations. *)
Inductive json :=
| JNull
| JBool (b : bool)
| JNum (z : Z)
| JStr (s : string)
| JList (l : list json)
| JDict (d : gmap string json).

(** Exceptions.  [KeyError k] is a failed [d[k]]; [AttributeError] is a
    method call on an object that lacks the method (as [None.get]);
    [TypeError] is an item access that the object does not support, or an
    unhashable dictionary key; [ValueError] is text that does not parse or
    a [list.remove] of an absent element; [RuntimeError] is raised by the
    service hierarchy; [UnicodeEncodeError] by [str] of text that is not
    ASCII.  [InvalidChannelType] carries the two values interpolated into
    its message: the offending type and the registry's keys. *)
Inductive exn :=
| KeyError (k : string)
| AttributeError
| TypeError
| ValueError
| RuntimeError
| UnicodeEncodeError
| ChannelNotFound
| InvalidChannelType (ty : json) (valid : list string).


Inductive result (A : Type) :=
| Ok (a : A)
| Raise (e : exn).
Arguments Ok {A} a.
Arguments Raise {A} e.

(** State and exception monad: the state that an exception leaves behind is
    the state at the point of the [raise]. *)
Definition M (S A : Type) : Type := S -> result A * S.

Definition raise {S A} (e : exn) : M S A := fun s => (Raise e, s).
Definition gets {S A} (f : S -> A) : M S A := fun s => (Ok (f s), s).
Definition modify {S} (f : S -> S) : M S unit := fun s => (Ok tt, f s).

#[export] Instance M_ret {S} : MRet (M S) := fun A a s => (Ok a, s).
#[export] Instance M_bind {S} : MBind (M S) := fun A B k m s =>
  match m s with
  | (Ok a, s') => k a s'
  | (Raise e, s') => (Raise e, s')
  end.

(** Python's [if c: body] with no [else]. *)
Definition when {S} (c : bool) (body : M S unit) : M S unit :=
  if c then body else mret tt.

Module Translator.

(** Values held in the fields of a message: scalars are immediate,
    dictionaries and lists are references into the heap. *)
Inductive value :=
| VNone
| VBool (b : bool)
| VInt (z : Z)
| VStr (s : string)
| VRef (l : nat).

Inductive obj :=
| ODict (d : gmap string value)
| OList (l : list value).

(** The heap: object [l] is the [l]-th entry; allocation appends. *)
Abbreviation heap := (list obj).

Definition is_not_None (v : value) : bool :=
  match v with VNone => false | _ => true end.

(** [{}] *)
Definition new_dict : M heap value :=
  fun h => (Ok (VRef (length h)), (h ++ [ODict ∅])%list).

(** The dictionary behind a value on which a [dict] method is called. *)
Definition as_dict (o : value) : M heap (nat * gmap string value) :=
  fun h => match o with
           | VRef l => match h !! l with
                       | Some (ODict d) => (Ok (l, d), h)
                       | _ => (Raise AttributeError, h)
                       end
           | _ => (Raise AttributeError, h)
           end.

(** [o.get(k, dflt)] *)
Definition get_default (o : value) (k : string) (dflt : value) : M heap value :=
  '(_, d) ← as_dict o; mret (default dflt (d !! k)).

(** [o.get(k)] *)
Definition get (o : value) (k : string) : M heap value :=
  get_default o k VNone.

(** [o.pop(k)] *)
Definition pop (o : value) (k : string) : M heap value :=
  '(l, d) ← as_dict o;
  match d !! k with
  | Some v => modify (fun h => <[l := ODict (delete k d)]> h);; mret v
  | None => raise (KeyError k)
  end.

(** [o[k]]: subscripting a list with a string, or a scalar, is a
    [TypeError]. *)
Definition getitem (o : value) (k : string) : M heap value :=
  fun h => match o with
           | VRef l => match h !! l with
                       | Some (ODict d) =>
                           match d !! k with
                           | Some v => (Ok v, h)
                           | None => (Raise (KeyError k), h)
                           end
                       | _ => (Raise TypeError, h)
                       end
           | _ => (Raise TypeError, h)
           end.

(** [o[k] = v] *)
Definition setitem (o : value) (k : string) (v : value) : M heap unit :=
  fun h => match o with
           | VRef l => match h !! l with
                       | Some (ODict d) => (Ok tt, <[l := ODict (<[k := v]> d)]> h)
                       | _ => (Raise TypeError, h)
                       end
           | _ => (Raise TypeError, h)
           end.

Definition api_from_message (msg : value) : M heap value :=
  ret_ ← new_dict;
  v ← getitem msg "to_addr"; setitem ret_ "to" v;;
  v ← getitem msg "from_addr"; setitem ret_ "from" v;;
  v ← getitem msg "message_id"; setitem ret_ "message_id" v;;
  v ← getitem msg "transport_name"; setitem ret_ "channel_id" v;;
  v ← getitem msg "timestamp"; setitem ret_ "timestamp" v;;
  v ← getitem msg "in_reply_to"; setitem ret_ "reply_to" v;;
  v ← getitem msg "content"; setitem ret_ "content" v;;
  v ← getitem msg "helper_metadata"; setitem ret_ "channel_data" v;;
  c ← get msg "continue_session";
  when (is_not_None c)
    (v ← getitem msg "continue_session";
     cd ← getitem ret_ "channel_data";
     setitem cd "continue_session" v);;
  c ← get msg "session_event";
  when (is_not_None c)
    (v ← getitem msg "session_event";
     cd ← getitem ret_ "channel_data";
     setitem cd "session_event" v);;
  mret ret_.

Definition message_from_api (id : string) (msg : value) : M heap value :=
  ret_ ← new_dict;
  v ← get msg "to"; setitem ret_ "to_addr" v;;
  v ← getitem msg "from"; setitem ret_ "from_addr" v;;
  v ← getitem msg "content"; setitem ret_ "content" v;;
  setitem ret_ "transport_name" (VStr id);;
  dflt ← new_dict;
  channel_data ← get_default msg "channel_data" dflt;
  c ← get channel_data "continue_session";
  when (is_not_None c)
    (v ← pop channel_data "continue_session";
     setitem ret_ "continue_session" v);;
  c ← get channel_data "session_event";
  when (is_not_None c)
    (v ← pop channel_data "session_event";
     setitem ret_ "session_event" v);;
  setitem ret_ "helper_metadata" channel_data;;
  mret ret_.

(** *** Closed forms of the two translators

    [carried k d] is the value that the guard
    [if d.get(k) is not None] lets through. *)
Definition carried (k : string) (d : gmap string value) : option value :=
  match d !! k with
  | Some v => if is_not_None v then Some v else None
  | None => None
  end.

Definition without (k : string) (d : gmap string value) : gmap string value :=
  match carried k d with Some _ => delete k d | None => d end.

Definition with_opt (k : string) (o : option value) (d : gmap string value)
  : gmap string value :=
  match o with Some v => <[k := v]> d | None => d end.

(** What is left of [channel_data] after [message_from_api]. *)
Definition stripped (cd : gmap string value) : gmap string value :=
  without "session_event" (without "continue_session" cd).

(** The dictionary that [message_from_api] returns, for an external message
    [d] whose channel data is the object [cl] with contents [cd]. *)
Definition internal_of (id : string) (d cd : gmap string value) (cl : nat)
  : gmap string value :=
  <["helper_metadata" := VRef cl]>
    (with_opt "session_event" (carried "session_event" cd)
       (with_opt "continue_session" (carried "continue_session" cd)
          (<["transport_name" := VStr id]>
             (<["content" := default VNone (d !! "content")]>
                (<["from_addr" := default VNone (d !! "from")]>
                   (<["to_addr" := default VNone (d !! "to")]> ∅)))))).

(** What [api_from_message] leaves in [helper_metadata]. *)
Definition folded (d hd : gmap string value) : gmap string value :=
  with_opt "session_event" (carried "session_event" d)
    (with_opt "continue_session" (carried "continue_session" d) hd).

(** The dictionary that [api_from_message] returns for an internal
    message [d]. *)
Definition external_of (d : gmap string value) : gmap string value :=
  <["channel_data" := default VNone (d !! "helper_metadata")]>
    (<["content" := default VNone (d !! "content")]>
       (<["reply_to" := default VNone (d !! "in_reply_to")]>
          (<["timestamp" := default VNone (d !! "timestamp")]>
             (<["channel_id" := default VNone (d !! "transport_name")]>
                (<["message_id" := default VNone (d !! "message_id")]>
                   (<["from" := default VNone (d !! "from_addr")]>
                      (<["to" := default VNone (d !! "to_addr")]> ∅))))))).

(** The channel data that [message_from_api] works on: the object [cl]
    with contents [cd].  Without a [channel_data] entry it is the fresh
    dictionary allocated for the default; with one, the entry has to be a
    dictionary other than the message itself. *)
Definition channel_data_at (h : heap) (m : nat) (d : gmap string value)
    (cl : nat) (cd : gmap string value) : Prop :=
  match d !! "channel_data" with
  | None => cl = S (length h) ∧ cd = ∅
  | Some v => v = VRef cl ∧ h !! cl = Some (ODict cd) ∧ cl ≠ m
  end.

(** The fields of the external message (spec, section 3). *)
Definition external_fields : gset string :=
  {[ "to"; "from"; "message_id"; "channel_id"; "timestamp"; "reply_to";
     "content"; "channel_data" ]}.

(** [send_message] does not hand the result of [message_from_api] to
    [api_from_message] directly: the message layer first builds a message
    out of it, which brings [message_id], [timestamp] and [in_reply_to]. *)
Definition completed (mid ts irt : value) (r : value) : M heap value :=
  setitem r "message_id" mid;;
  setitem r "timestamp" ts;;
  setitem r "in_reply_to" irt;;
  mret r.

(** [api_from_message(message_from_api(id, msg))], with the message layer
    in between. *)
Definition round_trip (id : string) (mid ts irt : value) (msg : value)
  : M heap value :=
  r ← message_from_api id msg;
  r ← completed mid ts irt r;
  api_from_message r.

(** *** Sample messages *)

(** [{'from': 'alice', 'content': 'hi',
      'channel_data': {'continue_session': True}}] at object 0, its channel
    data at object 1. *)
Definition sample_message : gmap string value :=
  <["from" := VStr "alice"]>
    (<["content" := VStr "hi"]> (<["channel_data" := VRef 1]> ∅)).
Definition sample_channel_data : gmap string value :=
  <["continue_session" := VBool true]> ∅.
Definition sample_heap : heap :=
  [ODict sample_message; ODict sample_channel_data].

(** [{'to': 'bob', 'content': 'hi'}]: no [from]. *)
Definition nofrom_message : gmap string value :=
  <["to" := VStr "bob"]> (<["content" := VStr "hi"]> ∅).
Definition nofrom_heap : heap := [ODict nofrom_message].

(** [{'from': 'alice'}]: no [content]. *)
Definition nocontent_message : gmap string value :=
  <["from" := VStr "alice"]> ∅.
Definition nocontent_heap : heap := [ODict nocontent_message].

(** An internal message that carries [session_event], with an empty
    [helper_metadata] at object 1. *)
Definition sample_internal_message : gmap string value :=
  <["to_addr" := VStr "bob"]>
    (<["from_addr" := VStr "alice"]>
       (<["message_id" := VStr "m1"]>
          (<["transport_name" := VStr "c1"]>
             (<["timestamp" := VStr "t"]>
                (<["in_reply_to" := VNone]>
                   (<["content" := VStr "hi"]>
                      (<["helper_metadata" := VRef 1]>
                         (<["session_event" := VStr "close"]> ∅)))))))).
Definition sample_internal : heap :=
  [ODict sample_internal_message; ODict ∅].

(** *** Sending *)

(** The keys that [api_from_message] reads with [msg[k]], in the order in
    which it reads them. *)
Definition api_required : list string :=
  [ "to_addr"; "from_addr"; "message_id"; "transport_name"; "timestamp";
    "in_reply_to"; "content"; "helper_metadata" ].

Section send_message.
(** [TransportUserMessage.send], which builds the message out of the
    keyword arguments, and [message_sender.send_message(message,
    routing_key=queue)], which answers with the message that was sent:
    both belong to the message layer and are parameters here. *)
Variable TransportUserMessage_send : value -> M heap value.
Variable message_sender_send_message : value -> string -> M heap value.

Definition send_message (id : string) (msg : value) : M heap value :=
  kwargs ← message_from_api id msg;
  message ← TransportUserMessage_send kwargs;
  let queue := id +:+ ".outbound" in
  msg ← message_sender_send_message message queue;
  api_from_message msg.
End send_message.

(** A message layer that completes the keyword arguments in place, and a
    sender that answers with the message it was given. *)
Definition sample_layer (kwargs : value) : M heap value :=
  completed (VStr "m1") (VStr "t") VNone kwargs.
Definition echo_sender (message : value) (queue : string) : M heap value :=
  mret message.

(** [{'from': 'alice', 'content': 'hi', 'channel_data': None}] *)
Definition nodata_message : gmap string value :=
  <["from" := VStr "alice"]>
    (<["content" := VStr "hi"]> (<["channel_data" := VNone]> ∅)).
Definition nodata_heap : heap := [ODict nodata_message].

(** An internal message that carries nothing, with [helper_metadata] set
    to [None]; and one that carries [session_event] with the same
    [helper_metadata]. *)
Definition plain_internal_message : gmap string value :=
  <["to_addr" := VStr "bob"]>
    (<["from_addr" := VStr "alice"]>
       (<["message_id" := VStr "m1"]>
          (<["transport_name" := VStr "c1"]>
             (<["timestamp" := VStr "t"]>
                (<["in_reply_to" := VNone]>
                   (<["content" := VStr "hi"]>
                      (<["helper_metadata" := VNone]> ∅))))))).
Definition plain_internal : heap := [ODict plain_internal_message].
Definition closing_internal_message : gmap string value :=
  <["session_event" := VStr "close"]> plain_internal_message.
Definition closing_internal : heap := [ODict closing_internal_message].

(** An internal message without [timestamp]. *)
Definition untimed_internal_message : gmap string value :=
  <["to_addr" := VStr "bob"]>
    (<["from_addr" := VStr "alice"]>
       (<["message_id" := VStr "m1"]>
          (<["transport_name" := VStr "c1"]> ∅))).
Definition untimed_internal : heap := [ODict untimed_internal_message].

End Translator.


(** * The channel *)

Module Chan.

(** Lifting a pure outcome into the monad. *)
Definition liftR {S A} (r : result A) : M S A := fun s => (r, s).

(** ** Operations on JSON values *)

Definition not_None (v : json) : bool :=
  match v with JNull => false | _ => true end.

(** [o.get(k)]: only a dictionary has the method. *)
Definition py_get (o : json) (k : string) : result json :=
  match o with
  | JDict d => Ok (default JNull (d !! k))
  | _ => Raise AttributeError
  end.

(** [o[k]] with a string key. *)
Definition py_getitem (o : json) (k : string) : result json :=
  match o with
  | JDict d => match d !! k with
               | Some v => Ok v
               | None => Raise (KeyError k)
               end
  | _ => Raise TypeError
  end.

(** [o[k] = v] with a string key. *)
Definition py_setitem (o : json) (k : string) (v : json) : result json :=
  match o with
  | JDict d => Ok (JDict (<[k := v]> d))
  | _ => Raise TypeError
  end.

(** [o.update(p)]: the entries of [p] win. *)
Definition py_update (o : json) (p : gmap string json) : result json :=
  match o with
  | JDict d => Ok (JDict (p ∪ d))
  | _ => Raise AttributeError
  end.

(** [deepcopy]: JSON trees are values, a copy is the tree itself. *)
Definition deepcopy (j : json) : json := j.

(** Sequencing of pure outcomes. *)
#[export] Instance result_ret : MRet result := fun A a => Ok a.
#[export] Instance result_bind : MBind result := fun A B k r =>
  match r with
  | Ok a => k a
  | Raise e => Raise e
  end.

(** Text is [unicode], as [json.loads] produces it, held as its UTF-8
    bytes: it is ASCII when every byte is below 128.  An ASCII [str] and the
    [unicode] of the same characters are equal in Python 2 and are not told
    apart. *)
Definition ascii_char (c : Ascii.ascii) : bool :=
  bool_decide (Ascii.nat_of_ascii c < 128).
Fixpoint ascii_text (s : string) : bool :=
  match s with
  | EmptyString => true
  | String c s' => ascii_char c && ascii_text s'
  end.

(** [str(data)] of text: the ASCII codec encodes it or raises. *)
Definition str (data : string) : result string :=
  if ascii_text data then Ok data else Raise UnicodeEncodeError.

(** [map(f, l)] and [dict(map(f, d.iteritems()))] for an [f] that can
    raise; [f] gets a key and its value and answers with the new pair. *)
Definition map_list {A B} (f : A -> result B) : list A -> result (list B) :=
  fix go l :=
    match l with
    | [] => Ok []
    | x :: l' => y ← f x; ys ← go l'; Ok (y :: ys)
    end.
Definition map_items {A B} (f : string -> A -> result (string * B))
    (d : gmap string A) : result (gmap string B) :=
  map_fold (fun k v acc => acc ← acc; kv ← f k v; Ok (<[kv.1 := kv.2]> acc))
           (Ok ∅) d.

(** The number of nodes of a JSON tree. *)
Fixpoint json_size (j : json) : nat :=
  match j with
  | JList l => S (foldr (fun x n => json_size x + n) 0 l)
  | JDict d => S (map_fold (fun _ x n => json_size x + n) 0 d)
  | _ => 1
  end.

(** ** The transport registry *)

Definition transports : list (string * string) :=
  [ ("telnet", "vumi.transports.telnet.TelnetServerTransport");
    ("xmpp", "vumi.transports.xmpp.XMPPTransport") ].

(** [transports.get(ty)]: a list or a dictionary is not hashable; any other
    value that is not one of the keys gives [None]. *)
Definition transports_get (ty : json) : result (option string) :=
  match ty with
  | JStr s => Ok ((list_to_map transports : gmap string string) !! s)
  | JList _ | JDict _ => Raise TypeError
  | _ => Ok None
  end.

Definition allowed_message_fields : list string :=
  [ "transport_name"; "timestamp"; "in_reply_to"; "to_addr"; "from_addr";
    "content"; "session_event"; "helper_metadata"; "message_id" ].

(** ** Workers, store, channel *)

(** A worker, which is a Twisted service: what it was created from, and
    its attributes [name] and [parent]. *)
Record worker := Worker {
  w_cls : string;
  w_config : gmap string json;
  w_options : gmap string json;
  w_name : option string;
  w_parent : option nat }.

(** The calls on the worker factory and the service hierarchy that went
    through, in order. *)
Inductive event :=
| EvCreate (w : nat) (cls : string)
| EvName (w : nat) (name : string)
| EvAttach (w : nat) (parent : nat)
| EvDetach (w : nat).

Section Channel.
(** The serialized form that the store holds. *)
Context {raw : Type}.

(** Everything outside the channel object.  [redis_kv] is keyed by
    sub-manager and key, [redis_sets] holds the sets of the top-level
    manager; worker handle [w] is the [w]-th entry of [workers].  A parent
    service is a Twisted [MultiService]: [services] holds its list
    [services] and [namedServices] its dictionary [namedServices], both
    keyed by the parent. *)
Record world := World {
  redis_kv : gmap (string * string) raw;
  redis_sets : gmap string (gset string);
  workers : list worker;
  services : gmap nat (list nat);
  namedServices : gmap (nat * string) nat;
  log : list event }.

Record channel := Channel {
  id : string;
  _properties : json;
  options : gmap string json;
  transport_worker : option nat;
  application_worker : option nat }.

Record state := State { self : channel; env : world }.

Definition with_kv (kv : gmap (string * string) raw) (e : world) : world :=
  World kv (redis_sets e) (workers e) (services e) (namedServices e) (log e).
Definition with_sets (sets : gmap string (gset string)) (e : world) : world :=
  World (redis_kv e) sets (workers e) (services e) (namedServices e) (log e).
Definition with_workers (ws : list worker) (e : world) : world :=
  World (redis_kv e) (redis_sets e) ws (services e) (namedServices e) (log e).
Definition with_services (sv : gmap nat (list nat)) (e : world) : world :=
  World (redis_kv e) (redis_sets e) (workers e) sv (namedServices e) (log e).
Definition with_named (nm : gmap (nat * string) nat) (e : world) : world :=
  World (redis_kv e) (redis_sets e) (workers e) (services e) nm (log e).
Definition logged (ev : event) (e : world) : world :=
  World (redis_kv e) (redis_sets e) (workers e) (services e) (namedServices e)
    (log e ++ [ev]).

Definition set_properties (p : json) (c : channel) : channel :=
  Channel (id c) p (options c) (transport_worker c) (application_worker c).
Definition set_transport_worker (o : option nat) (c : channel) : channel :=
  Channel (id c) (_properties c) (options c) o (application_worker c).
Definition set_application_worker (o : option nat) (c : channel) : channel :=
  Channel (id c) (_properties c) (options c) (transport_worker c) o.

Definition upd_self (f : channel -> channel) : M state unit :=
  modify (fun s => State (f (self s)) (env s)).
Definition upd_env (f : world -> world) : M state unit :=
  modify (fun s => State (self s) (f (env s))).

(** Running a method on the object [obj]. *)
Definition on_object {A} (obj : channel) (m : M state A) : M world (A * channel) :=
  fun w => match m (State obj w) with
           | (Ok a, s) => (Ok (a, self s), env s)
           | (Raise e, s) => (Raise e, env s)
           end.

(** ** The worker factory and the service hierarchy *)

(** Modelled from the spec: the worker factory ([WorkerCreator]) is an
    external collaborator; [create_worker] follows its adapter contract
    (section 4.4): it returns a fresh handle.  The worker it makes has no
    name and no parent. *)
Definition create_worker (opts : gmap string json) (cls_name : string)
    (config : gmap string json) : M state nat :=
  fun s =>
    let w := length (workers (env s)) in
    (Ok w,
     State (self s)
       (logged (EvCreate w cls_name)
          (with_workers (workers (env s) ++ [Worker cls_name config opts None None])
             (env s)))).

(** The services are Twisted's ([twisted.application.service]): a worker
    is a [Service], the parent handed to [start] a [MultiService].  Their
    methods are written out as the library has them.  What a running
    parent does to a service that is added or removed (starting and
    stopping it) is not part of the model. *)
Definition set_name (name : string) (k : worker) : worker :=
  Worker (w_cls k) (w_config k) (w_options k) (Some name) (w_parent k).
Definition set_parent (parent : option nat) (k : worker) : worker :=
  Worker (w_cls k) (w_config k) (w_options k) (w_name k) parent.

(** [parent.services], empty for a parent that never had a child. *)
Definition services_of (e : world) (p : nat) : list nat :=
  default [] (services e !! p).

(** [l.remove(x)]: the list without the first [x], if there is one. *)
Fixpoint list_remove (x : nat) (l : list nat) : option (list nat) :=
  match l with
  | [] => None
  | y :: l' => if decide (x = y) then Some l' else (y ::.) <$> list_remove x l'
  end.

(** [worker.name] and [worker.parent] *)
Definition name_of (w : nat) : M state (option string) :=
  gets (fun s => workers (env s) !! w ≫= w_name).
Definition parent_of (w : nat) : M state (option nat) :=
  gets (fun s => workers (env s) !! w ≫= w_parent).

(** [Service.setName(name)]: refused for a service that has a parent. *)
Definition setName (w : nat) (name : string) : M state unit :=
  parent ← parent_of w;
  match parent with
  | Some _ => raise RuntimeError
  | None =>
      upd_env (fun e => with_workers (alter (set_name name) w (workers e)) e);;
      upd_env (logged (EvName w name))
  end.

(** [MultiService.addService(service)], on the parent [p]: two services
    of one name are refused. *)
Definition addService (p w : nat) : M state unit :=
  name ← name_of w;
  match name with
  | Some name =>
      named ← gets (fun s => namedServices (env s));
      match named !! (p, name) with
      | Some _ => raise RuntimeError
      | None => upd_env (with_named (<[(p, name) := w]> named))
      end
  | None => mret tt
  end;;
  upd_env (fun e => with_services (<[p := services_of e p ++ [w]]> (services e)) e).

(** [MultiService.removeService(service)], on the parent [p]: the entry
    of the name is deleted when the name is neither [None] nor empty, then
    the service is removed from the list. *)
Definition removeService (p w : nat) : M state unit :=
  name ← name_of w;
  match name with
  | Some name =>
      if decide (name = "") then mret tt
      else
        named ← gets (fun s => namedServices (env s));
        match named !! (p, name) with
        | Some _ => upd_env (with_named (delete (p, name) named))
        | None => raise (KeyError name)
        end
  | None => mret tt
  end;;
  children ← gets (fun s => services_of (env s) p);
  match list_remove w children with
  | Some rest => upd_env (fun e => with_services (<[p := rest]> (services e)) e)
  | None => raise ValueError
  end.

(** [Service.disownServiceParent()]: the parent removes the service, then
    [parent] is set to [None]; without a parent the call on [None]
    fails. *)
Definition disownServiceParent (w : nat) : M state unit :=
  parent ← parent_of w;
  match parent with
  | None => raise AttributeError
  | Some p =>
      removeService p w;;
      upd_env (fun e => with_workers (alter (set_parent None) w (workers e)) e);;
      upd_env (logged (EvDetach w))
  end.

(** [Service.setServiceParent(parent)]: a service that has a parent
    leaves it first; [parent] is set before the new parent adds the
    service.  [None] is no service, and the call on it fails. *)
Definition setServiceParent (w : nat) (service : option nat) : M state unit :=
  parent ← parent_of w;
  match parent with
  | Some _ => disownServiceParent w
  | None => mret tt
  end;;
  upd_env (fun e => with_workers (alter (set_parent service) w (workers e)) e);;
  match service with
  | None => raise AttributeError
  | Some p =>
      addService p w;;
      upd_env (logged (EvAttach w p))
  end.

(** [MultiService.getServiceNamed(name)] is [namedServices[name]]. *)
Definition getServiceNamed (service : nat) (name : string) : M state nat :=
  named ← gets (fun s => namedServices (env s));
  match named !! (service, name) with
  | Some w => mret w
  | None => raise (KeyError name)
  end.

(** ** The [Channel] class *)

(** [json.dumps] and [json.loads] ([None] for text that does not parse),
    and [VumiOptions.default_vumi_options]. *)
Variable dumps : json -> raw.
Variable loads : raw -> option json.
Variable default_vumi_options : gmap string json.

(** [__init__] with the id supplied. *)
Definition init (amqp_config : gmap string json) (properties : json)
    (id : string) : channel :=
  Channel id properties (amqp_config ∪ default_vumi_options) None None.

(** [__init__] with [id=None]; [uuid4] is what [str(uuid.uuid4())]
    returns. *)
Definition init_generated (uuid4 : string) (amqp_config : gmap string json)
    (properties : json) : channel :=
  init amqp_config properties uuid4.

Definition _application_id : M state string :=
  gets (fun s => "application:" +:+ id (self s)).

(** The items of a mapping are pairs, which are iterables: key and value
    are both converted. *)
Fixpoint _convert_unicode (data : json) : result json :=
  match data with
  | JStr s => s ← str s; Ok (JStr s)
  | JDict d =>
      d ← map_items (fun k v => k ← str k; v ← _convert_unicode v; Ok (k, v)) d;
      Ok (JDict d)
  | JList l => l ← map_list _convert_unicode l; Ok (JList l)
  | _ => Ok data
  end.

(** What [_convert_unicode] does to one item of a mapping. *)
Definition convert_item (k : string) (v : json) : result (string * json) :=
  k ← str k; v ← _convert_unicode v; Ok (k, v).

Definition _transport_config : M state (gmap string json) :=
  c ← gets self;
  config ← liftR (py_getitem (_properties c) "config");
  config ← liftR (_convert_unicode config);
  config ← liftR (py_setitem config "transport_name" (JStr (id c)));
  match config with
  | JDict d => mret d
  | _ => raise TypeError
  end.

Definition _application_config : M state (gmap string json) :=
  c ← gets self;
  mo_url ← liftR (py_getitem (_properties c) "mo_url");
  mret (<["mo_message_url" := mo_url]>
          (<["transport_name" := JStr (id c)]> ∅)).

Definition _transport_cls_name : M state string :=
  c ← gets self;
  ty ← liftR (py_get (_properties c) "type");
  cls_name ← liftR (transports_get ty);
  match cls_name with
  | None =>
      ty ← liftR (py_get (_properties c) "type");
      raise (InvalidChannelType ty (transports.*1))
  | Some cls_name => mret cls_name
  end.

Definition _application_cls_name : M state string :=
  mret "junebug.workers.MessageForwardingWorker".

Definition _create_worker (cls_name : string) (config : gmap string json)
  : M state nat :=
  c ← gets self;
  create_worker (options c) cls_name config.

Definition _create_transport : M state nat :=
  cls_name ← _transport_cls_name;
  config ← _transport_config;
  _create_worker cls_name config.

Definition _create_application : M state nat :=
  cls_name ← _application_cls_name;
  config ← _application_config;
  _create_worker cls_name config.

Definition _start_transport (service : option nat)
    (transport_worker : option nat) : M state unit :=
  transport_worker ← match transport_worker with
                     | None => _create_transport
                     | Some w => mret w
                     end;
  c ← gets self;
  setName transport_worker (id c);;
  setServiceParent transport_worker service;;
  upd_self (set_transport_worker (Some transport_worker)).

Definition _start_application (service : option nat) : M state unit :=
  worker ← _create_application;
  name ← _application_id;
  setName worker name;;
  setServiceParent worker service;;
  upd_self (set_application_worker (Some worker)).

Definition start (service : option nat) (transport_worker : option nat)
  : M state unit :=
  _start_transport service transport_worker;;
  _start_application service.

Definition _stop_transport : M state unit :=
  c ← gets self;
  match transport_worker c with
  | Some w =>
      disownServiceParent w;;
      upd_self (set_transport_worker None)
  | None => mret tt
  end.

Definition _stop_application : M state unit :=
  c ← gets self;
  match application_worker c with
  | Some w =>
      disownServiceParent w;;
      upd_self (set_application_worker None)
  | None => mret tt
  end.

Definition stop : M state unit :=
  _stop_application;;
  _stop_transport.

(** Worker [w] is attached under the parent [p] with the name [name]:
    it bears the name and has the parent, and the parent has it under the
    name and in its list. *)
Definition attached (e : world) (w p : nat) (name : string) : Prop :=
  workers e !! w ≫= w_name = Some name
  ∧ workers e !! w ≫= w_parent = Some p
  ∧ namedServices e !! (p, name) = Some w
  ∧ w ∈ services_of e p.

#[export] Instance attached_dec e w p name : Decision (attached e w p name).
Proof. unfold attached. apply _. Defined.

(** Every worker the channel holds is attached under the name the channel
    gives it. *)
Definition holds_attached (s : state) : Prop :=
  (∀ a, application_worker (self s) = Some a ->
        ∃ p, attached (env s) a p ("application:" +:+ id (self s)))
  ∧ (∀ t, transport_worker (self s) = Some t ->
          ∃ p, attached (env s) t p (id (self s))).

(** The channel is running under [p]: it holds a transport worker and an
    application worker, both attached under [p]. *)
Definition running (p : nat) (s : state) : Prop :=
  ∃ t a,
    transport_worker (self s) = Some t
    ∧ application_worker (self s) = Some a
    ∧ attached (env s) t p (id (self s))
    ∧ attached (env s) a p ("application:" +:+ id (self s)).

(** The state that a successful [start(service)] leaves, in terms of the
    transport class, the converted [config] and the [mo_url] it found. *)
Definition started (p : nat) (cls_name : string) (config : gmap string json)
    (mo_url : json) (s : state) : state :=
  let c := self s in
  let n := length (workers (env s)) in
  let app := "application:" +:+ id c in
  State
    (set_application_worker (Some (S n)) (set_transport_worker (Some n) c))
    (World (redis_kv (env s)) (redis_sets (env s))
       (workers (env s) ++
          [ Worker cls_name
              (<["transport_name" := JStr (id c)]> config)
              (options c) (Some (id c)) (Some p);
            Worker "junebug.workers.MessageForwardingWorker"
              (<["mo_message_url" := mo_url]>
                 (<["transport_name" := JStr (id c)]> ∅))
              (options c) (Some app) (Some p) ])
       (<[p := services_of (env s) p ++ [n; S n]]> (services (env s)))
       (<[(p, app) := S n]> (<[(p, id c) := n]> (namedServices (env s))))
       (log (env s) ++
          [ EvCreate n cls_name; EvName n (id c); EvAttach n p;
            EvCreate (S n) "junebug.workers.MessageForwardingWorker";
            EvName (S n) app; EvAttach (S n) p ])).

(** The world that a successful [disownServiceParent] of [w] leaves. *)
Definition detached (w : nat) (e : world) : world :=
  match workers e !! w ≫= w_parent with
  | None => e
  | Some p =>
      World (redis_kv e) (redis_sets e)
        (alter (set_parent None) w (workers e))
        (<[p := default [] (list_remove w (services_of e p))]> (services e))
        (match workers e !! w ≫= w_name with
         | Some name =>
             if decide (name = "") then namedServices e
             else delete (p, name) (namedServices e)
         | None => namedServices e
         end)
        (log e ++ [EvDetach w])
  end.

(** What [disownServiceParent] needs of the worker [w]: a parent that
    has it in its list and, unless its name is [None] or empty, under its
    name. *)
Definition can_disown (e : world) (w : nat) : Prop :=
  ∃ p, workers e !! w ≫= w_parent = Some p
       ∧ is_Some (list_remove w (services_of e p))
       ∧ match workers e !! w ≫= w_name with
         | Some name => name = "" ∨ is_Some (namedServices e !! (p, name))
         | None => True
         end.

(** The state that a successful [stop] leaves. *)
Definition stopped (s : state) : state :=
  let e1 := from_option (fun w => detached w (env s)) (env s)
              (application_worker (self s)) in
  let e2 := from_option (fun w => detached w e1) e1
              (transport_worker (self s)) in
  State (set_transport_worker None (set_application_worker None (self s))) e2.

(** What [stop] needs: the application worker, if the channel holds one,
    can be disowned, and then the transport worker. *)
Definition can_stop (s : state) : Prop :=
  (∀ a, application_worker (self s) = Some a -> can_disown (env s) a)
  ∧ (∀ t, transport_worker (self s) = Some t ->
          can_disown (from_option (fun a => detached a (env s)) (env s)
                        (application_worker (self s))) t).

(** Modelled from the spec: the store is an external collaborator; its
    operations follow the adapter contract (section 4.3): [set], [get]
    and [delete] act on the key of the channel's own sub-manager, [sadd]
    and [smembers] on a set of the top-level manager. *)
Definition redis_set (sub key : string) (value : raw) : M state unit :=
  upd_env (fun e => with_kv (<[(sub, key) := value]> (redis_kv e)) e).
Definition redis_delete (sub key : string) : M state unit :=
  upd_env (fun e => with_kv (delete (sub, key) (redis_kv e)) e).
Definition redis_sadd (name member : string) : M state unit :=
  upd_env (fun e =>
    with_sets (<[name := {[member]} ∪ default ∅ (redis_sets e !! name)]>
                 (redis_sets e)) e).
Definition redis_get (sub key : string) : M world (option raw) :=
  gets (fun e => redis_kv e !! (sub, key)).
Definition redis_smembers (name : string) : M world (gset string) :=
  gets (fun e => default ∅ (redis_sets e !! name)).

Definition save : M state unit :=
  c ← gets self;
  let properties := dumps (_properties c) in
  redis_set (id c) "properties" properties;;
  redis_sadd "channels" (id c).

(** The state that [save] leaves. *)
Definition saved (s : state) : state :=
  let c := self s in
  State c
    (with_sets
       (<["channels" := {[id c]} ∪ default ∅ (redis_sets (env s) !! "channels")]>
          (redis_sets (env s)))
       (with_kv (<[(id c, "properties") := dumps (_properties c)]>
                   (redis_kv (env s)))
          (env s))).

(** The state in which [update(p)] has merged and saved. *)
Definition merged_saved (p d : gmap string json) (s : state) : state :=
  saved (State (set_properties (JDict (p ∪ d)) (self s)) (env s)).

Definition status : M state json :=
  c ← gets self;
  status ← liftR (py_setitem (deepcopy (_properties c)) "id" (JStr (id c)));
  status ← liftR (py_setitem status "status" (JDict ∅));
  mret status.

Definition update (properties : gmap string json) : M state json :=
  c ← gets self;
  merged ← liftR (py_update (_properties c) properties);
  upd_self (set_properties merged);;
  save;;
  when (not_None (default JNull (properties !! "config")))
    (c ← gets self;
     service ← match transport_worker c with
               | Some w => parent_of w
               | None => raise AttributeError
               end;
     stop;;
     start service None);;
  status.

Definition delete : M state unit :=
  c ← gets self;
  redis_delete (id c) "properties".

Definition _restore (service : nat) : M state unit :=
  c ← gets self;
  w ← getServiceNamed service (id c);
  upd_self (set_transport_worker (Some w));;
  name ← _application_id;
  w ← getServiceNamed service name;
  upd_self (set_application_worker (Some w)).

Definition from_id (amqp_config : gmap string json) (id : string)
    (parent : nat) : M world channel :=
  properties ← redis_get id "properties";
  match properties with
  | None => raise ChannelNotFound
  | Some properties =>
      match loads properties with
      | None => raise ValueError
      | Some properties =>
          let obj := init amqp_config properties id in
          '(_, obj) ← on_object obj (_restore parent);
          mret obj
      end
  end.

Definition get_all : M world (gset string) :=
  channels ← redis_smembers "channels";
  mret channels.

End Channel.

(** *** Sample channels

    The store of the samples holds the properties themselves. *)
Definition plain_dumps (j : json) : json := j.
Definition plain_loads (r : json) : option json := Some r.

(** [{'type': 'telnet', 'config': {}, 'mo_url': 'http://x'}] *)
Definition sample_properties : gmap string json :=
  <["type" := JStr "telnet"]>
    (<["config" := JDict ∅]> (<["mo_url" := JStr "http://x"]> ∅)).

(** A channel that was never started, in an empty store and an empty
    service hierarchy; the same channel after [start] under service 0. *)
Definition fresh_state : state (raw := json) :=
  State (init ∅ ∅ (JDict sample_properties) "c1") (World ∅ ∅ [] ∅ ∅ []).
Definition running_state : state (raw := json) :=
  (start (Some 0) None fresh_state).2.

(** [{'config': None}], [{'config': {'port': 23}}], [{'mo_url': 'http://y'}] *)
Definition null_config : gmap string json := <["config" := JNull]> ∅.
Definition new_config : gmap string json :=
  <["config" := JDict (<["port" := JNum 23]> ∅)]> ∅.

(** Properties whose [type] is not in the registry, and whose [type] is a
    list. *)
Definition smpp_properties : gmap string json :=
  <["type" := JStr "smpp"]>
    (<["config" := JDict ∅]> (<["mo_url" := JStr "http://x"]> ∅)).
Definition list_properties : gmap string json :=
  <["type" := JList []]>
    (<["config" := JDict ∅]> (<["mo_url" := JStr "http://x"]> ∅)).
Definition list_state : state (raw := json) :=
  State (init ∅ ∅ (JDict list_properties) "c3") (World ∅ ∅ [] ∅ ∅ []).

(** The [smpp] channel next to a worker made by a test, handle 0. *)
Definition override_state : state (raw := json) :=
  State (init ∅ ∅ (JDict smpp_properties) "c2")
    (World ∅ ∅ [Worker "tests.FakeTransport" ∅ ∅ None None] ∅ ∅ []).

(** The [smpp] channel after [start] with that worker handed in. *)
Definition running_smpp_state : state (raw := json) :=
  (start (Some 0) (Some 0) override_state).2.

(** [{'type': 'telnet', 'mo_url': 'http://x'}] and
    [{'type': 'telnet', 'config': {}}] *)
Definition no_config_properties : gmap string json :=
  <["type" := JStr "telnet"]> (<["mo_url" := JStr "http://x"]> ∅).
Definition no_mo_url_properties : gmap string json :=
  <["type" := JStr "telnet"]> (<["config" := JDict ∅]> ∅).
Definition no_config_state : state (raw := json) :=
  State (init ∅ ∅ (JDict no_config_properties) "c4") (World ∅ ∅ [] ∅ ∅ []).
Definition no_mo_url_state : state (raw := json) :=
  State (init ∅ ∅ (JDict no_mo_url_properties) "c5") (World ∅ ∅ [] ∅ ∅ []).

(** [{'type': 'telnet', 'config': {'host': u'\xe9'}, 'mo_url': 'http://x'}]:
    the host is the letter e with an acute accent, two bytes in UTF-8. *)
Definition e_acute : string :=
  String (Ascii.ascii_of_nat 195) (String (Ascii.ascii_of_nat 169) "").
Definition unicode_properties : gmap string json :=
  <["type" := JStr "telnet"]>
    (<["config" := JDict (<["host" := JStr e_acute]> ∅)]>
       (<["mo_url" := JStr "http://x"]> ∅)).
Definition unicode_state : state (raw := json) :=
  State (init ∅ ∅ (JDict unicode_properties) "c7") (World ∅ ∅ [] ∅ ∅ []).

(** A second channel object for the running channel, as [from_id] returns
    it, after the first object has stopped the workers: it still holds the
    two handles. *)
Definition stale_state : state (raw := json) :=
  State (self running_state) (env (stop running_state).2).

(** A channel whose properties are a list. *)
Definition list_valued_state : state (raw := json) :=
  State (init ∅ ∅ (JList []) "c6") (World ∅ ∅ [] ∅ ∅ []).

End Chan.

(** * Facts about the monad *)

Lemma run_bind_ok {S A B} (m : M S A) (k : A -> M S B) s a s' :
  m s = (Ok a, s') -> (m ≫= k) s = k a s'.
Proof. intros H. unfold mbind, M_bind. by rewrite H. Qed.

Lemma run_bind_raise {S A B} (m : M S A) (k : A -> M S B) s e s' :
  m s = (Raise e, s') -> (m ≫= k) s = (Raise e, s').
Proof. intros H. unfold mbind, M_bind. by rewrite H. Qed.

Lemma bind_assoc_run {S A B C} (m : M S A) (f : A -> M S B) (g : B -> M S C) s :
  ((m ≫= f) ≫= g) s = (m ≫= fun a => f a ≫= g) s.
Proof. unfold mbind, M_bind. by destruct (m s) as [[a|e] s']. Qed.

Lemma gets_run {S A} (f : S -> A) (s : S) : gets f s = (Ok (f s), s).
Proof. reflexivity. Qed.

Lemma modify_run {S} (f : S -> S) (s : S) : modify f s = (Ok tt, f s).
Proof. reflexivity. Qed.

Lemma mret_run {S A} (a : A) (s : S) : mret (M := M S) a s = (Ok a, s).
Proof. reflexivity. Qed.

Lemma bind_run {S A B} (m : M S A) (k : A -> M S B) s :
  (m ≫= k) s =
    match m s with
    | (Ok a, s') => k a s'
    | (Raise e, s') => (Raise e, s')
    end.
Proof. reflexivity. Qed.

Module TranslatorFacts.
Import Translator.

Section primitives.
Context (h : heap) (l : nat) (d : gmap string value).
Hypothesis Hl : h !! l = Some (ODict d).

Lemma as_dict_run : as_dict (VRef l) h = (Ok (l, d), h).
Proof using Hl. unfold as_dict. by rewrite Hl. Qed.

Lemma get_default_run k dflt :
  get_default (VRef l) k dflt h = (Ok (default dflt (d !! k)), h).
Proof using Hl. unfold get_default. by rewrite (run_bind_ok _ _ _ _ _ as_dict_run). Qed.

Lemma get_run k : get (VRef l) k h = (Ok (default VNone (d !! k)), h).
Proof using Hl. apply get_default_run. Qed.

Lemma getitem_run k v : d !! k = Some v -> getitem (VRef l) k h = (Ok v, h).
Proof using Hl. intros Hk. unfold getitem. by rewrite Hl, Hk. Qed.

Lemma getitem_miss k :
  d !! k = None -> getitem (VRef l) k h = (Raise (KeyError k), h).
Proof using Hl. intros Hk. unfold getitem. by rewrite Hl, Hk. Qed.

Lemma setitem_run k v :
  setitem (VRef l) k v h = (Ok tt, <[l := ODict (<[k := v]> d)]> h).
Proof using Hl. unfold setitem. by rewrite Hl. Qed.

Lemma pop_run k v :
  d !! k = Some v -> pop (VRef l) k h = (Ok v, <[l := ODict (delete k d)]> h).
Proof using Hl.
  intros Hk. unfold pop. rewrite (run_bind_ok _ _ _ _ _ as_dict_run).
  by rewrite Hk.
Qed.
End primitives.

(** Objects allocated at the end of the heap. *)
Lemma lookup_tail0 (H : heap) n x T : n = length H -> (H ++ x :: T) !! n = Some x.
Proof. intros ->. by apply list_lookup_middle. Qed.

Lemma lookup_tail1 (H : heap) n x y T :
  n = length H -> (H ++ x :: y :: T) !! S n = Some y.
Proof.
  intros ->. rewrite lookup_app_r by lia.
  by replace (S (length H) - length H) with 1 by lia.
Qed.

Lemma insert_tail0 (H : heap) n x T z :
  n = length H -> <[n := z]> (H ++ x :: T) = H ++ z :: T.
Proof.
  intros ->. rewrite insert_app_r_alt by lia.
  by rewrite Nat.sub_diag.
Qed.

Lemma insert_tail1 (H : heap) n x y T z :
  n = length H -> <[S n := z]> (H ++ x :: y :: T) = H ++ x :: z :: T.
Proof.
  intros ->. rewrite insert_app_r_alt by lia.
  by replace (S (length H) - length H) with 1 by lia.
Qed.

Lemma snoc_snoc (H : heap) x y : (H ++ [x]) ++ [y] = H ++ [x; y].
Proof. by rewrite <- (assoc_L (++)). Qed.

Ltac len :=
  repeat match goal with
         | H : _ !! _ = Some _ |- _ => apply lookup_lt_Some in H
         end;
  rewrite ?length_insert, ?length_app in *; simpl in *; lia.

Lemma new_dict_run (h : heap) :
  new_dict h = (Ok (VRef (length h)), h ++ [ODict ∅]).
Proof. reflexivity. Qed.

(** Looking an object up in a heap of the shape [H ++ T], where [H] is the
    initial heap with at most one object overwritten. *)
Ltac heap_lookup :=
  first
    [ eassumption
    | apply lookup_tail0; len
    | apply lookup_tail1; len
    | rewrite lookup_app_l by len; heap_lookup
    | rewrite list_lookup_insert_eq by len; reflexivity
    | rewrite list_lookup_insert_ne by len; heap_lookup ].

Ltac dict_lookup :=
  first [ eassumption | by simplify_map_eq ].

Ltac heap_norm :=
  repeat first
    [ rewrite snoc_snoc
    | rewrite insert_tail0 by len
    | rewrite insert_tail1 by len
    | rewrite insert_app_l by len
    | rewrite list_insert_insert_eq
    | rewrite length_app; simpl length; rewrite Nat.add_1_r ].

(** One statement of a translator: rewrite with the equation [lem] of the
    primitive at the head of the program. *)
Ltac run lem :=
  erewrite run_bind_ok by (eapply lem; first [heap_lookup | dict_lookup]);
  cbv beta; heap_norm.

Lemma carried_Some k (d : gmap string value) v :
  carried k d = Some v -> d !! k = Some v ∧ is_not_None v = true.
Proof.
  unfold carried. destruct (d !! k) as [w|]; [|done].
  destruct (is_not_None w) eqn:E; [|done]. by intros [= ->].
Qed.

Lemma carried_None k (d : gmap string value) :
  carried k d = None -> is_not_None (default VNone (d !! k)) = false.
Proof.
  unfold carried. destruct (d !! k) as [w|]; [|done]. simpl.
  by destruct (is_not_None w).
Qed.

Lemma carried_without_ne k k' (d : gmap string value) :
  k ≠ k' -> carried k (without k' d) = carried k d.
Proof.
  intros Hne. unfold without, carried at 1 3.
  destruct (carried k' d); [|done]. by rewrite lookup_delete_ne.
Qed.

(** The statement pair
    [if src.get(k) is not None: dst[k] = src.pop(k)]. *)
Lemma move_run {B} (h : heap) src sd dst dd k (rest : M heap B) :
  h !! src = Some (ODict sd) -> h !! dst = Some (ODict dd) -> src ≠ dst ->
  (c ← get (VRef src) k;
   when (is_not_None c) (v ← pop (VRef src) k; setitem (VRef dst) k v);;
   rest) h
  = rest (<[dst := ODict (with_opt k (carried k sd) dd)]>
            (<[src := ODict (without k sd)]> h)).
Proof.
  intros Hs Hd Hne. run get_run. unfold without.
  destruct (carried k sd) as [v|] eqn:E.
  - apply carried_Some in E as [Hk Hv]. rewrite Hk. simpl. rewrite Hv. simpl.
    erewrite run_bind_ok.
    2:{ run pop_run. eapply setitem_run.
        rewrite list_lookup_insert_ne by done. eassumption. }
    reflexivity.
  - apply carried_None in E. rewrite E. simpl.
    rewrite (run_bind_ok _ _ _ _ _ (mret_run tt h)).
    rewrite (list_insert_id h src) by done. by rewrite list_insert_id.
Qed.

Lemma message_from_api_run (h : heap) id m d cl cd :
  h !! m = Some (ODict d) ->
  is_Some (d !! "from") -> is_Some (d !! "content") ->
  channel_data_at h m d cl cd ->
  message_from_api id (VRef m) h =
    (Ok (VRef (length h)),
     <[cl := ODict (stripped cd)]>
       (h ++ [ODict (internal_of id d cd cl); ODict ∅])).
Proof.
  intros Hm [f Hf] [c Hc] Hcd.
  unfold message_from_api.
  run new_dict_run.
  run get_run.
  run setitem_run.
  run getitem_run.
  run setitem_run.
  run getitem_run.
  run setitem_run.
  run setitem_run.
  run new_dict_run.
  run get_default_run.
  assert (default (VRef (S (length h))) (d !! "channel_data") = VRef cl
          ∧ cl ≠ length h
          ∧ (h ++ [ODict ∅; ODict ∅]) !! cl = Some (ODict cd)) as (-> & Hne & Hl).
  { unfold channel_data_at in Hcd. destruct (d !! "channel_data") as [v|].
    - destruct Hcd as (-> & Hl & _). repeat split; [len|]. by heap_lookup.
    - destruct Hcd as (-> & ->). repeat split; [lia|]. by apply lookup_tail1. }
  unfold stripped, internal_of. rewrite Hf, Hc. simpl.
  destruct (decide (cl < length h)).
  - rewrite lookup_app_l in Hl by done.
    erewrite move_run by first [heap_lookup | done]. heap_norm.
    erewrite move_run by first [heap_lookup | done]. heap_norm.
    rewrite carried_without_ne by done.
    run setitem_run. by rewrite mret_run.
  - assert (cl = S (length h)) as -> by len.
    rewrite lookup_tail1 in Hl by done. injection Hl as <-.
    erewrite move_run by first [heap_lookup | done]. heap_norm.
    erewrite move_run by first [heap_lookup | done]. heap_norm.
    rewrite carried_without_ne by done.
    run setitem_run. by rewrite mret_run.
Qed.

(** The statement pair
    [if msg.get(k) is not None: ret['channel_data'][k] = msg[k]]. *)
Lemma fold_run {B} (h : heap) m d r rd hl hd k (rest : M heap B) :
  h !! m = Some (ODict d) -> h !! r = Some (ODict rd) ->
  rd !! "channel_data" = Some (VRef hl) -> h !! hl = Some (ODict hd) ->
  (c ← get (VRef m) k;
   when (is_not_None c)
     (v ← getitem (VRef m) k;
      cd ← getitem (VRef r) "channel_data";
      setitem cd k v);;
   rest) h
  = rest (<[hl := ODict (with_opt k (carried k d) hd)]> h).
Proof.
  intros Hm Hr Hcd Hh. run get_run.
  destruct (carried k d) as [v|] eqn:E.
  - apply carried_Some in E as [Hk Hv]. rewrite Hk. simpl. rewrite Hv. simpl.
    erewrite run_bind_ok.
    2:{ run getitem_run. run getitem_run. by eapply setitem_run. }
    reflexivity.
  - apply carried_None in E. rewrite E. simpl.
    rewrite (run_bind_ok _ _ _ _ _ (mret_run tt h)).
    by rewrite list_insert_id.
Qed.

Lemma api_from_message_run (h : heap) m d hl hd :
  h !! m = Some (ODict d) ->
  is_Some (d !! "to_addr") -> is_Some (d !! "from_addr") ->
  is_Some (d !! "message_id") -> is_Some (d !! "transport_name") ->
  is_Some (d !! "timestamp") -> is_Some (d !! "in_reply_to") ->
  is_Some (d !! "content") ->
  d !! "helper_metadata" = Some (VRef hl) ->
  h !! hl = Some (ODict hd) -> hl ≠ m ->
  api_from_message (VRef m) h =
    (Ok (VRef (length h)),
     <[hl := ODict (folded d hd)]> (h ++ [ODict (external_of d)])).
Proof.
  intros Hm [v1 H1] [v2 H2] [v3 H3] [v4 H4] [v5 H5] [v6 H6] [v7 H7] H8 Hh Hne.
  unfold api_from_message.
  run new_dict_run.
  do 8 (run getitem_run; run setitem_run).
  unfold external_of, folded. rewrite H1, H2, H3, H4, H5, H6, H7, H8. simpl.
  erewrite fold_run by first [heap_lookup | dict_lookup]. heap_norm.
  erewrite fold_run by first [heap_lookup | dict_lookup]. heap_norm.
  by rewrite mret_run.
Qed.

Lemma stripped_lookup k (cd : gmap string value) :
  stripped cd !! k =
    if decide (k = "continue_session" ∨ k = "session_event")
    then match carried k cd with Some _ => None | None => cd !! k end
    else cd !! k.
Proof.
  unfold stripped. unfold without at 1.
  rewrite carried_without_ne by done. unfold without.
  destruct (carried "continue_session" cd) eqn:E1;
    destruct (carried "session_event" cd) eqn:E2;
    destruct (decide _) as [Hk|Hk]; try destruct Hk as [-> | ->];
    rewrite ?E1, ?E2; by simplify_map_eq.
Qed.

(** Folding the carried entries back restores the channel data. *)
Lemma restored (cd : gmap string value) :
  with_opt "session_event" (carried "session_event" cd)
    (with_opt "continue_session" (carried "continue_session" cd)
       (stripped cd)) = cd.
Proof.
  apply map_eq. intros k.
  pose proof (stripped_lookup k cd) as Hs.
  destruct (carried "continue_session" cd) as [v1|] eqn:E1;
    destruct (carried "session_event" cd) as [v2|] eqn:E2; simpl;
    rewrite ?lookup_insert, Hs; repeat case_decide; destruct_or?; subst;
    rewrite ?E1, ?E2;
    try apply carried_Some in E1 as [E1 _];
    try apply carried_Some in E2 as [E2 _];
    naive_solver.
Qed.

Lemma with_opt_lookup_ne k k' o (d : gmap string value) :
  k ≠ k' -> with_opt k' o d !! k = d !! k.
Proof. intros Hne. destruct o; simpl; [|done]. by rewrite lookup_insert_ne. Qed.

Lemma with_opt_lookup_eq k o (d : gmap string value) :
  d !! k = None -> with_opt k o d !! k = o.
Proof. intros Hk. destruct o; simpl; [|done]. by rewrite lookup_insert_eq. Qed.

Lemma carried_of_lookup k (d cd : gmap string value) :
  d !! k = carried k cd -> carried k d = carried k cd.
Proof.
  intros Hk. unfold carried at 1. rewrite Hk.
  destruct (carried k cd) as [v|] eqn:E; [|done].
  apply carried_Some in E as [_ Hv]. by rewrite Hv.
Qed.

(** The fields of the internal message built by [message_from_api]. *)
Lemma internal_of_lookup id d cd cl k :
  internal_of id d cd cl !! k =
    if decide (k = "helper_metadata") then Some (VRef cl)
    else if decide (k = "session_event") then carried k cd
    else if decide (k = "continue_session") then carried k cd
    else if decide (k = "transport_name") then Some (VStr id)
    else if decide (k = "content") then Some (default VNone (d !! "content"))
    else if decide (k = "from_addr") then Some (default VNone (d !! "from"))
    else if decide (k = "to_addr") then Some (default VNone (d !! "to"))
    else None.
Proof.
  unfold internal_of.
  repeat case_decide; subst;
    repeat first
      [ rewrite lookup_insert_eq
      | rewrite lookup_insert_ne by done
      | rewrite with_opt_lookup_ne by done
      | rewrite with_opt_lookup_eq
          by (repeat first [ rewrite lookup_insert_ne by done
                           | rewrite with_opt_lookup_ne by done ];
              apply lookup_empty) ];
    done.
Qed.

Lemma external_of_dom d : dom (external_of d) = external_fields.
Proof. unfold external_of, external_fields. rewrite !dom_insert_L, dom_empty_L. set_solver. Qed.

Lemma channel_data_at_cases (h : heap) m d cl cd :
  h !! m = Some (ODict d) -> channel_data_at h m d cl cd ->
  (cl < length h ∧ cl ≠ m ∧ h !! cl = Some (ODict cd))
  ∨ (cl = S (length h) ∧ cd = ∅).
Proof.
  intros Hm Hcd. unfold channel_data_at in Hcd.
  destruct (d !! "channel_data"); [left|right; done].
  destruct Hcd as (_ & Hl & Hne). split; [|done]. by apply lookup_lt_Some in Hl.
Qed.

Lemma completed_run (h : heap) mid ts irt r d :
  h !! r = Some (ODict d) ->
  completed mid ts irt (VRef r) h =
    (Ok (VRef r),
     <[r := ODict (<["in_reply_to" := irt]>
                     (<["timestamp" := ts]> (<["message_id" := mid]> d)))]> h).
Proof.
  intros Hr. unfold completed.
  run setitem_run. run setitem_run. run setitem_run. by rewrite mret_run.
Qed.

Ltac ext_field :=
  unfold external_of; rewrite ?lookup_insert_ne by done;
  rewrite lookup_insert_eq.

(** C1 (as amended). Let [m] be an external message with [from] and
    [content] whose [channel_data], when present, is a dictionary.  Once
    the result of [message_from_api] has been given [message_id],
    [timestamp] and [in_reply_to], [api_from_message] returns an external
    message whose [to] ([None] when [m] has none), [from] and [content] are
    those of [m], whose [channel_data] is the very object of [m] (or the
    fresh empty dictionary) with the contents it had at the start, and
    whose fields are exactly the eight external fields; every object of the
    initial heap is as it was. *)
Theorem round_trip_reproduces (h : heap) id mid ts irt m d cl cd :
  h !! m = Some (ODict d) ->
  is_Some (d !! "from") -> is_Some (d !! "content") ->
  channel_data_at h m d cl cd ->
  ∃ h' E,
    round_trip id mid ts irt (VRef m) h = (Ok (VRef (S (S (length h)))), h')
    ∧ h' !! S (S (length h)) = Some (ODict E)
    ∧ E !! "to" = Some (default VNone (d !! "to"))
    ∧ E !! "from" = d !! "from"
    ∧ E !! "content" = d !! "content"
    ∧ E !! "channel_data" = Some (VRef cl)
    ∧ h' !! cl = Some (ODict cd)
    ∧ dom E = external_fields
    ∧ ∀ l, l < length h -> h' !! l = h !! l.
Proof.
  intros Hm Hf Hc Hcd. unfold round_trip.
  rewrite (run_bind_ok _ _ _ _ _ (message_from_api_run h id m d cl cd Hm Hf Hc Hcd)).
  destruct Hf as [f Hf], Hc as [c Hc].
  set (R := internal_of id d cd cl).
  set (D := <["in_reply_to" := irt]> (<["timestamp" := ts]> (<["message_id" := mid]> R))).
  set (n := length h).
  set (h1 := <[cl := ODict (stripped cd)]> (h ++ [ODict R; ODict ∅])).
  assert (HD : ∀ k, D !! k =
            if decide (k = "in_reply_to") then Some irt
            else if decide (k = "timestamp") then Some ts
            else if decide (k = "message_id") then Some mid
            else R !! k).
  { intros k. unfold D. repeat case_decide; subst; by simplify_map_eq. }
  assert (Hcs : ∀ k, k = "continue_session" ∨ k = "session_event" ->
                carried k D = carried k cd).
  { intros k Hk. apply carried_of_lookup. rewrite HD.
    unfold R. rewrite internal_of_lookup.
    destruct Hk as [-> | ->]; by repeat case_decide. }
  assert (Hcl : cl < S (S n) ∧ cl ≠ n ∧ (cl < n -> h !! cl = Some (ODict cd))).
  { destruct (channel_data_at_cases _ _ _ _ _ Hm Hcd) as [(? & ? & ?)|(-> & ->)];
      unfold n; repeat split; try done; lia. }
  destruct Hcl as (Hcl1 & Hcl2 & Hcl3).
  assert (Hlen1 : length h1 = S (S n)).
  { unfold h1, n. rewrite length_insert, length_app. simpl. lia. }
  assert (Hn1 : h1 !! n = Some (ODict R)).
  { unfold h1. rewrite list_lookup_insert_ne by done. by apply lookup_tail0. }
  rewrite (run_bind_ok _ _ _ _ _ (completed_run h1 mid ts irt n R Hn1)).
  fold D. set (h2 := <[n := ODict D]> h1).
  assert (Hlen2 : length h2 = S (S n)) by (unfold h2; by rewrite length_insert).
  assert (Hn2 : h2 !! n = Some (ODict D)).
  { unfold h2. apply list_lookup_insert_eq. lia. }
  assert (Hc2 : h2 !! cl = Some (ODict (stripped cd))).
  { unfold h2, h1. rewrite list_lookup_insert_ne by done.
    apply list_lookup_insert_eq. rewrite length_app. simpl. fold n. lia. }
  eexists _, (external_of D). split.
  { rewrite <- Hlen2.
    apply (api_from_message_run h2 n D cl (stripped cd)); try done;
      rewrite HD; unfold R; rewrite ?internal_of_lookup;
      by repeat case_decide. }
  unfold folded. rewrite !Hcs by auto. rewrite restored.
  split_and!.
  - rewrite list_lookup_insert_ne by lia. by apply lookup_tail0.
  - ext_field. rewrite HD.
    unfold R. rewrite internal_of_lookup. by repeat case_decide.
  - ext_field. rewrite HD.
    unfold R. rewrite internal_of_lookup, Hf. by repeat case_decide.
  - ext_field. rewrite HD.
    unfold R. rewrite internal_of_lookup, Hc. by repeat case_decide.
  - ext_field. rewrite HD.
    unfold R. rewrite internal_of_lookup. by repeat case_decide.
  - apply list_lookup_insert_eq. rewrite length_app. lia.
  - apply external_of_dom.
  - intros l Hlt. destruct (decide (l = cl)) as [->|Hne].
    + rewrite list_lookup_insert_eq by (rewrite length_app; lia). by rewrite Hcl3.
    + rewrite list_lookup_insert_ne by done.
      rewrite lookup_app_l by lia. unfold h2, h1.
      rewrite !list_lookup_insert_ne by (done || lia).
      by apply lookup_app_l.
Qed.


Lemma folded_lookup k (d hd : gmap string value) :
  folded d hd !! k =
    if decide (k = "continue_session" ∨ k = "session_event")
    then match carried k d with Some v => Some v | None => hd !! k end
    else hd !! k.
Proof.
  unfold folded.
  destruct (carried "continue_session" d) eqn:E1;
    destruct (carried "session_event" d) eqn:E2; simpl;
    destruct (decide _) as [Hk|Hk]; try destruct Hk as [-> | ->];
    rewrite ?E1, ?E2; simplify_map_eq; try done;
    rewrite ?lookup_insert_ne by naive_solver; done.
Qed.

(** C1, counterexample. Handing the result of [message_from_api] straight
    to [api_from_message] raises [KeyError]: the internal message has no
    [message_id]. *)
Lemma round_trip_direct_fails :
  ((r ← message_from_api "c1" (VRef 0); api_from_message r) sample_heap).1
  = Raise (KeyError "message_id").
Proof. vm_compute. reflexivity. Qed.

(** C1, witness. *)
Lemma round_trip_reproduces_witness :
  ∃ h' E,
    round_trip "c1" (VStr "m1") (VStr "t") VNone (VRef 0) sample_heap
      = (Ok (VRef 4), h')
    ∧ h' !! 4 = Some (ODict E)
    ∧ E !! "to" = Some VNone
    ∧ E !! "from" = Some (VStr "alice")
    ∧ E !! "content" = Some (VStr "hi")
    ∧ E !! "channel_data" = Some (VRef 1)
    ∧ h' !! 1 = Some (ODict sample_channel_data)
    ∧ dom E = external_fields
    ∧ ∀ l, l < 2 -> h' !! l = sample_heap !! l.
Proof.
  apply (round_trip_reproduces sample_heap "c1" (VStr "m1") (VStr "t") VNone
           0 sample_message 1 sample_channel_data).
  - reflexivity.
  - exists (VStr "alice"). reflexivity.
  - exists (VStr "hi"). reflexivity.
  - unfold channel_data_at.
    change (sample_message !! "channel_data") with (Some (VRef 1)).
    split; [reflexivity|]. split; [reflexivity|]. lia.
Defined.




(** C9 (as amended). [message_from_api] leaves the external message
    itself, and every other object of the heap but the channel data,
    unchanged; from the channel data it removes [continue_session] and
    [session_event] when they hold a value other than [None], and nothing
    else.  [api_from_message] leaves the internal message itself, and every
    other object but [helper_metadata], unchanged; into [helper_metadata]
    it writes the [continue_session] and [session_event] that the message
    carries, and nothing else. *)
Theorem translators_touch_nested_only :
  (∀ (h : heap) id m d cl cd,
     h !! m = Some (ODict d) ->
     is_Some (d !! "from") -> is_Some (d !! "content") ->
     channel_data_at h m d cl cd ->
     ∃ h' cd',
       message_from_api id (VRef m) h = (Ok (VRef (length h)), h')
       ∧ h' !! m = Some (ODict d)
       ∧ (∀ l, l < length h -> l ≠ cl -> h' !! l = h !! l)
       ∧ h' !! cl = Some (ODict cd')
       ∧ (∀ k, cd' !! k =
                 if decide (k = "continue_session" ∨ k = "session_event")
                 then match carried k cd with Some _ => None | None => cd !! k end
                 else cd !! k))
  ∧ (∀ (h : heap) m d hl hd,
       h !! m = Some (ODict d) ->
       is_Some (d !! "to_addr") -> is_Some (d !! "from_addr") ->
       is_Some (d !! "message_id") -> is_Some (d !! "transport_name") ->
       is_Some (d !! "timestamp") -> is_Some (d !! "in_reply_to") ->
       is_Some (d !! "content") ->
       d !! "helper_metadata" = Some (VRef hl) ->
       h !! hl = Some (ODict hd) -> hl ≠ m ->
       ∃ h' hd',
         api_from_message (VRef m) h = (Ok (VRef (length h)), h')
         ∧ h' !! m = Some (ODict d)
         ∧ (∀ l, l < length h -> l ≠ hl -> h' !! l = h !! l)
         ∧ h' !! hl = Some (ODict hd')
         ∧ (∀ k, hd' !! k =
                   if decide (k = "continue_session" ∨ k = "session_event")
                   then match carried k d with Some v => Some v | None => hd !! k end
                   else hd !! k)).
Proof.
  split.
  - intros h id m d cl cd Hm Hf Hc Hcd.
    rewrite (message_from_api_run h id m d cl cd Hm Hf Hc Hcd).
    exists (<[cl:=ODict (stripped cd)]> (h ++ [ODict (internal_of id d cd cl); ODict ∅])),
      (stripped cd).
    pose proof (lookup_lt_Some _ _ _ Hm) as Hlt.
    destruct (channel_data_at_cases _ _ _ _ _ Hm Hcd) as [(? & ? & ?)|(-> & ->)].
    + split_and!; [done| | | |intros k; apply stripped_lookup].
      * rewrite list_lookup_insert_ne by done. by rewrite lookup_app_l.
      * intros l Hl Hne. rewrite list_lookup_insert_ne by done.
        by rewrite lookup_app_l.
      * apply list_lookup_insert_eq. rewrite length_app. lia.
    + split_and!; [done| | | |intros k; apply stripped_lookup].
      * rewrite list_lookup_insert_ne by lia. by rewrite lookup_app_l.
      * intros l Hl Hne. rewrite list_lookup_insert_ne by done.
        by rewrite lookup_app_l.
      * apply list_lookup_insert_eq. rewrite length_app. simpl. lia.
  - intros h m d hl hd Hm H1 H2 H3 H4 H5 H6 H7 H8 Hh Hne.
    rewrite (api_from_message_run h m d hl hd) by done.
    pose proof (lookup_lt_Some _ _ _ Hm) as Hlt.
    pose proof (lookup_lt_Some _ _ _ Hh) as Hlt'.
    eexists _, (folded d hd). split_and!; [done| | | |intros k; apply folded_lookup].
    + rewrite list_lookup_insert_ne by done. by rewrite lookup_app_l.
    + intros l Hl Hn. rewrite list_lookup_insert_ne by done.
      by rewrite lookup_app_l.
    + apply list_lookup_insert_eq. rewrite length_app. lia.
Qed.

(** C9, witness. *)
Lemma translators_touch_nested_only_witness :
  (∃ h' cd',
     message_from_api "c1" (VRef 0) sample_heap = (Ok (VRef 2), h')
     ∧ h' !! 0 = Some (ODict sample_message)
     ∧ h' !! 1 = Some (ODict cd')
     ∧ cd' !! "continue_session" = None)
  ∧ (∃ h' hd',
       api_from_message (VRef 0) sample_internal = (Ok (VRef 2), h')
       ∧ h' !! 0 = Some (ODict sample_internal_message)
       ∧ h' !! 1 = Some (ODict hd')
       ∧ hd' !! "session_event" = Some (VStr "close")).
Proof.
  split.
  - destruct (proj1 translators_touch_nested_only sample_heap "c1" 0
                sample_message 1 sample_channel_data)
      as (h' & cd' & H1 & H2 & _ & H3 & H4).
    + reflexivity.
    + exists (VStr "alice"). reflexivity.
    + exists (VStr "hi"). reflexivity.
    + unfold channel_data_at.
      change (sample_message !! "channel_data") with (Some (VRef 1)).
      split; [reflexivity|]. split; [reflexivity|]. lia.
    + exists h', cd'. split_and!; [exact H1|exact H2|exact H3|].
      rewrite H4. reflexivity.
  - destruct (proj2 translators_touch_nested_only sample_internal 0
                sample_internal_message 1 ∅)
      as (h' & hd' & H1 & H2 & _ & H3 & H4).
    + reflexivity.
    + exists (VStr "bob"). reflexivity.
    + exists (VStr "alice"). reflexivity.
    + exists (VStr "m1"). reflexivity.
    + exists (VStr "c1"). reflexivity.
    + exists (VStr "t"). reflexivity.
    + exists VNone. reflexivity.
    + exists (VStr "hi"). reflexivity.
    + reflexivity.
    + reflexivity.
    + lia.
    + exists h', hd'. split_and!; [exact H1|exact H2|exact H3|].
      rewrite H4. reflexivity.
Defined.

(** C9, counterexample. [message_from_api] empties the channel data of the
    message it was given, and [api_from_message] writes into the
    [helper_metadata] of the message it was given. *)
Lemma translators_mutate_their_input :
  (sample_heap !! 1 = Some (ODict sample_channel_data)
   ∧ sample_channel_data !! "continue_session" = Some (VBool true)
   ∧ (message_from_api "c1" (VRef 0) sample_heap).2 !! 1 = Some (ODict ∅))
  ∧ (sample_internal !! 1 = Some (ODict ∅)
     ∧ (api_from_message (VRef 0) sample_internal).2 !! 1
       = Some (ODict (<["session_event" := VStr "close"]> ∅))).
Proof. split_and!; vm_compute; reflexivity. Qed.

End TranslatorFacts.

Module ChanFacts.
Import Chan.

(** ** Induction on JSON trees *)

Lemma json_size_dict (d : gmap string json) k v :
  d !! k = Some v -> json_size v < json_size (JDict d).
Proof.
  simpl. revert k v.
  apply (map_fold_weak_ind
           (fun n (m : gmap string json) =>
              ∀ k v, m !! k = Some v -> json_size v < S n)).
  - intros k v Hk. by rewrite lookup_empty in Hk.
  - intros i x m n Hi IH k v Hk.
    destruct (decide (k = i)) as [->|Hne].
    + rewrite lookup_insert_eq in Hk. injection Hk as ->. lia.
    + rewrite lookup_insert_ne in Hk by done.
      specialize (IH k v Hk). lia.
Qed.

Lemma json_size_list (l : list json) v :
  v ∈ l -> json_size v < json_size (JList l).
Proof.
  simpl. induction 1 as [x l|x y l Hin IH]; simpl; lia.
Qed.

Lemma json_tree_ind (P : json -> Prop) :
  P JNull -> (∀ b, P (JBool b)) -> (∀ z, P (JNum z)) -> (∀ s, P (JStr s)) ->
  (∀ l, Forall P l -> P (JList l)) ->
  (∀ d, map_Forall (fun _ => P) d -> P (JDict d)) ->
  ∀ j, P j.
Proof.
  intros Hnull Hbool Hnum Hstr Hlist Hdict j.
  remember (json_size j) as n eqn:Hn. revert j Hn.
  induction (lt_wf n) as [n _ IH]. intros j ->.
  destruct j as [|b|z|s|l|d]; auto.
  - apply Hlist, Forall_forall. intros v Hv.
    by apply (IH _ (json_size_list l v Hv)).
  - apply Hdict. intros k v Hk.
    by apply (IH _ (json_size_dict d k v Hk)).
Qed.

(** ** [_convert_unicode] *)

Lemma str_cases s :
  (ascii_text s = true ∧ str s = Ok s)
  ∨ (ascii_text s = false ∧ str s = Raise UnicodeEncodeError).
Proof. unfold str. destruct (ascii_text s); auto. Qed.

(** [map_items] with a function that keeps what it accepts. *)
Lemma map_items_keep (f : string -> json -> result (string * json))
    (d : gmap string json) :
  (∀ k v, d !! k = Some v ->
          f k v = Ok (k, v) ∨ f k v = Raise UnicodeEncodeError) ->
  (map_items f d = Ok d ∨ map_items f d = Raise UnicodeEncodeError)
  ∧ (map_items f d = Ok d ↔ ∀ k v, d !! k = Some v -> f k v = Ok (k, v)).
Proof.
  unfold map_items.
  apply (map_fold_weak_ind
           (fun r (m : gmap string json) =>
              (∀ k v, m !! k = Some v ->
                      f k v = Ok (k, v) ∨ f k v = Raise UnicodeEncodeError) ->
              (r = Ok m ∨ r = Raise UnicodeEncodeError)
              ∧ (r = Ok m ↔ ∀ k v, m !! k = Some v -> f k v = Ok (k, v)))).
  - intros _. split; [by left|]. split; [|done].
    intros _ k v Hk. by rewrite lookup_empty in Hk.
  - intros i x m r Hi IH Hall.
    assert (Hm : ∀ k v, m !! k = Some v ->
                   f k v = Ok (k, v) ∨ f k v = Raise UnicodeEncodeError).
    { intros k v Hk. apply Hall. rewrite lookup_insert_ne; [done|].
      intros ->. by rewrite Hi in Hk. }
    destruct (IH Hm) as [Hr Hiff].
    assert (Hx := Hall i x (lookup_insert_eq _ _ _)).
    destruct Hr as [->| ->]; simpl.
    + destruct Hx as [E|E]; rewrite E; simpl.
      * split; [by left|]. split; [|done].
        intros _ k v Hk. destruct (decide (k = i)) as [->|Hne].
        -- rewrite lookup_insert_eq in Hk. by injection Hk as <-.
        -- rewrite lookup_insert_ne in Hk by done. by apply Hiff.
      * split; [by right|]. split; [done|].
        intros Hk. by rewrite (Hk i x (lookup_insert_eq _ _ _)) in E.
    + split; [by right|]. split; [done|].
      intros Hk. exfalso.
      assert (Raise UnicodeEncodeError = Ok m) as E; [|done].
      apply Hiff. intros k v Hkv. apply Hk.
      rewrite lookup_insert_ne; [done|]. intros ->. by rewrite Hi in Hkv.
Qed.

(** [map_list] with a function that keeps what it accepts. *)
Lemma map_list_keep (f : json -> result json) (l : list json) :
  Forall (fun v => f v = Ok v ∨ f v = Raise UnicodeEncodeError) l ->
  (map_list f l = Ok l ∨ map_list f l = Raise UnicodeEncodeError)
  ∧ (map_list f l = Ok l ↔ Forall (fun v => f v = Ok v) l).
Proof.
  induction 1 as [|x l Hx Hl [IH1 IH2]]; simpl.
  - split; [by left|]. split; [by constructor|done].
  - destruct Hx as [E|E]; rewrite E; simpl.
    + destruct IH1 as [E'|E']; rewrite E'; simpl.
      * split; [by left|]. split; [|done].
        intros _. constructor; [done|]. by apply IH2.
      * split; [by right|]. split; [done|].
        intros Hall. apply Forall_cons in Hall as [_ Hall].
        apply IH2 in Hall. by rewrite Hall in E'.
    + split; [by right|]. split; [done|].
      intros Hall. apply Forall_cons in Hall as [Hall _]. by rewrite Hall in E.
Qed.

Lemma convert_item_keep k v :
  _convert_unicode v = Ok v ∨ _convert_unicode v = Raise UnicodeEncodeError ->
  (convert_item k v = Ok (k, v) ∨ convert_item k v = Raise UnicodeEncodeError)
  ∧ (convert_item k v = Ok (k, v)
     ↔ ascii_text k = true ∧ _convert_unicode v = Ok v).
Proof.
  intros Hv. unfold convert_item.
  destruct (str_cases k) as [[Ha ->]|[Ha ->]]; simpl.
  - destruct Hv as [E|E]; rewrite E; simpl.
    + split; [by left|]. by split.
    + split; [by right|]. split; [done|]. by intros [_ ?].
  - split; [by right|]. split; [done|]. intros [? _]. congruence.
Qed.

(** [_convert_unicode] returns the data it was given or raises
    [UnicodeEncodeError]. *)
Lemma _convert_unicode_keep j :
  _convert_unicode j = Ok j ∨ _convert_unicode j = Raise UnicodeEncodeError.
Proof.
  induction j as [|b|z|s|l IH|d IH] using json_tree_ind; simpl; auto.
  - destruct (str_cases s) as [[_ ->]|[_ ->]]; simpl; auto.
  - destruct (map_list_keep _convert_unicode l IH) as [[E|E] _];
      rewrite E; simpl; auto.
  - destruct (map_items_keep convert_item d) as [[E|E] _].
    + intros k v Hk. apply convert_item_keep. by apply (IH k v).
    + unfold convert_item in E. rewrite E. simpl. auto.
    + unfold convert_item in E. rewrite E. simpl. auto.
Qed.

Lemma _convert_unicode_Ok j j' : _convert_unicode j = Ok j' -> j' = j.
Proof.
  intros E. destruct (_convert_unicode_keep j) as [E'|E']; congruence.
Qed.

Lemma _convert_unicode_dict (d : gmap string json) :
  _convert_unicode (JDict d) = Ok (JDict d)
  ↔ ∀ k v, d !! k = Some v -> ascii_text k = true ∧ _convert_unicode v = Ok v.
Proof.
  destruct (map_items_keep convert_item d) as [Hr Hiff].
  { intros k v _. apply convert_item_keep, _convert_unicode_keep. }
  simpl. fold convert_item. split.
  - intros E k v Hk.
    apply (convert_item_keep k v (_convert_unicode_keep v)).
    apply Hiff; [|done].
    destruct Hr as [E'|E']; [done|]. by rewrite E' in E.
  - intros Hall. rewrite (proj2 Hiff); [done|].
    intros k v Hk.
    apply (convert_item_keep k v (_convert_unicode_keep v)). by apply Hall.
Qed.

Lemma _convert_unicode_list (l : list json) :
  _convert_unicode (JList l) = Ok (JList l)
  ↔ Forall (fun v => _convert_unicode v = Ok v) l.
Proof.
  destruct (map_list_keep _convert_unicode l) as [Hr Hiff].
  { apply Forall_forall. intros v _. apply _convert_unicode_keep. }
  simpl. split.
  - intros E. apply Hiff. destruct Hr as [E'|E']; [done|]. by rewrite E' in E.
  - intros Hall. by rewrite (proj2 Hiff).
Qed.

(** ** Lists of children and workers *)

Lemma list_remove_elem (x : nat) l : x ∈ l -> is_Some (list_remove x l).
Proof.
  induction l as [|y l IH]; [by intros ?%elem_of_nil|].
  intros [->|Hin]%elem_of_cons; simpl.
  - rewrite decide_True by done. eauto.
  - case_decide; [eauto|]. destruct (IH Hin) as [r ->]. simpl. eauto.
Qed.

Lemma list_remove_other (x y : nat) l r :
  list_remove x l = Some r -> y ≠ x -> y ∈ l -> y ∈ r.
Proof.
  revert r. induction l as [|z l IH]; intros r; simpl; [done|].
  case_decide as Hz.
  - intros [= <-] Hne [->|Hin]%elem_of_cons; [done|done].
  - destruct (list_remove x l) as [r'|]; simpl; [|done].
    intros [= <-] Hne [->|Hin]%elem_of_cons; [left|right; by apply IH].
Qed.

Lemma list_remove_gone (x : nat) l r :
  list_remove x l = Some r -> NoDup l -> x ∉ r.
Proof.
  revert r. induction l as [|z l IH]; intros r; simpl; [done|].
  case_decide as Hz.
  - intros [= <-] [Hn _]%NoDup_cons. by subst.
  - destruct (list_remove x l) as [r'|]; simpl; [|done].
    intros [= <-] [_ Hnd]%NoDup_cons [->|Hin]%elem_of_cons; [done|].
    by apply (IH r').
Qed.

Lemma list_remove_tail (x : nat) l t :
  x ∉ l -> list_remove x (l ++ x :: t) = Some (l ++ t).
Proof.
  induction l as [|y l IH]; simpl; intros Hn.
  - by rewrite decide_True.
  - apply not_elem_of_cons in Hn as [Hne Hn].
    rewrite decide_False by done. by rewrite IH.
Qed.

Lemma alter_tail1 {A} (f : A -> A) (l : list A) x y t :
  alter f (S (length l)) (l ++ x :: y :: t) = l ++ x :: f y :: t.
Proof.
  rewrite alter_app_r_alt by lia.
  by replace (S (length l) - length l) with 1 by lia.
Qed.

Lemma lookup_tail0' {A} (l : list A) x t : (l ++ x :: t) !! length l = Some x.
Proof. by apply list_lookup_middle. Qed.

Lemma lookup_tail1' {A} (l : list A) x y t :
  (l ++ x :: y :: t) !! S (length l) = Some y.
Proof.
  rewrite lookup_app_r by lia.
  by replace (S (length l) - length l) with 1 by lia.
Qed.

Lemma alter_tail0 {A} (f : A -> A) (l : list A) x t :
  alter f (length l) (l ++ x :: t) = l ++ f x :: t.
Proof. rewrite alter_app_r_alt by lia. by rewrite Nat.sub_diag. Qed.

(** Attributes of a worker after one of them was set. *)
Lemma name_set_parent (ws : list worker) o w i :
  alter (set_parent o) w ws !! i ≫= w_name = ws !! i ≫= w_name.
Proof.
  destruct (decide (i = w)) as [->|Hne].
  - rewrite list_lookup_alter_eq. by destruct (ws !! w).
  - by rewrite list_lookup_alter_ne.
Qed.


Lemma parent_set_parent (ws : list worker) o w i :
  alter (set_parent o) w ws !! i ≫= w_parent =
    if decide (i = w) then ws !! w ≫= fun _ => o else ws !! i ≫= w_parent.
Proof.
  case_decide as Hi.
  - subst. rewrite list_lookup_alter_eq. by destruct (ws !! w).
  - by rewrite list_lookup_alter_ne.
Qed.


Lemma set_parent_None_id (ws : list worker) w :
  ws !! w ≫= w_parent = None -> alter (set_parent None) w ws = ws.
Proof.
  intros Hp. apply list_eq. intros i.
  destruct (decide (i = w)) as [->|Hne].
  - rewrite list_lookup_alter_eq. destruct (ws !! w) as [[? ? ? ? par]|]; [|done].
    simpl in *. by subst.
  - by rewrite list_lookup_alter_ne.
Qed.

Lemma application_id_ne (i : string) : "application:" +:+ i ≠ i.
Proof.
  intros H. apply (f_equal String.length) in H.
  cbv [String.append] in H. simpl in H. lia.
Qed.

Lemma application_id_nonempty (i : string) : "application:" +:+ i ≠ "".
Proof. by cbv [String.append]. Qed.

(** Reduce the projections of records that are given explicitly. *)
Ltac proj :=
  cbn [self env workers services namedServices log redis_kv redis_sets
       id _properties options transport_worker application_worker
       w_cls w_config w_options w_name w_parent
       with_kv with_sets with_workers with_services with_named logged
       services_of set_transport_worker set_application_worker
       set_properties].

(** Run the statements at the head of a method. *)
Ltac exec :=
  repeat (rewrite ?bind_run;
          unfold gets, modify, upd_env, upd_self, raise, liftR, mret, M_ret,
            services_of, with_kv, with_sets, with_workers, with_services,
            with_named, logged;
          proj).

Section hierarchy.
Context {raw : Type}.

Implicit Types (s : state (raw := raw)) (e : world (raw := raw)).
Implicit Types (c : channel) (kv : gmap (string * string) raw)
  (sets : gmap string (gset string)) (ws : list worker)
  (sv : gmap nat (list nat)) (nm : gmap (nat * string) nat) (lg : list event).

(** ** The methods of the services *)

Lemma setName_run c kv sets ws sv nm lg w name :
  ws !! w ≫= w_parent = None ->
  setName w name (State c (World kv sets ws sv nm lg)) =
    (Ok tt, State c (World kv sets (alter (set_name name) w ws) sv nm
                       (lg ++ [EvName w name]))).
Proof.
  intros Hp. unfold setName, parent_of. exec. rewrite Hp. by exec.
Qed.

Lemma setName_refused c kv sets ws sv nm lg w name p :
  ws !! w ≫= w_parent = Some p ->
  setName w name (State c (World kv sets ws sv nm lg)) =
    (Raise RuntimeError, State c (World kv sets ws sv nm lg)).
Proof.
  intros Hp. unfold setName, parent_of. exec. rewrite Hp. by exec.
Qed.

Lemma setServiceParent_run c kv sets ws sv nm lg w p name :
  ws !! w ≫= w_parent = None ->
  ws !! w ≫= w_name = Some name ->
  nm !! (p, name) = None ->
  setServiceParent w (Some p) (State c (World kv sets ws sv nm lg)) =
    (Ok tt,
     State c (World kv sets (alter (set_parent (Some p)) w ws)
                (<[p := default [] (sv !! p) ++ [w]]> sv)
                (<[(p, name) := w]> nm)
                (lg ++ [EvAttach w p]))).
Proof.
  intros Hp Hn Hfree.
  unfold setServiceParent, addService, parent_of, name_of. exec.
  rewrite Hp. exec. rewrite name_set_parent, Hn. exec. rewrite Hfree. by exec.
Qed.


Lemma disownServiceParent_ok s w s' :
  disownServiceParent w s = (Ok tt, s')
  ↔ can_disown (env s) w ∧ s' = State (self s) (detached w (env s)).
Proof.
  destruct s as [c [kv sets ws sv nm lg]].
  unfold disownServiceParent, removeService, parent_of, name_of,
    can_disown, detached. exec.
  destruct (ws !! w ≫= w_parent) as [p|] eqn:Hp; exec;
    [|split; [done|by intros [(? & ? & _) _]]].
  destruct (list_remove w (default [] (sv !! p))) as [rest|] eqn:Hr.
  2:{ split.
      - destruct (ws !! w ≫= w_name) as [n|]; exec;
          [case_decide; exec; [|destruct (nm !! (p, n)); exec]|];
          rewrite ?Hr; exec; done.
      - intros [(p' & Heq & [x Hx] & _) _]. simplify_eq. }
  destruct (ws !! w ≫= w_name) as [n|] eqn:Hn; exec.
  - case_decide as Hempty; exec.
    + rewrite Hr. exec. split.
      * intros [= <-]. split; [|done]. exists p. eauto.
      * by intros [_ ->].
    + destruct (nm !! (p, n)) as [x|] eqn:Hx; exec.
      * rewrite Hr. exec. split.
        -- intros [= <-]. split; [|done]. exists p. split_and!; eauto.
        -- by intros [_ ->].
      * split; [done|].
        intros [(p' & [= <-] & _ & [?|[? ?]]) _]; simplify_eq.
  - rewrite Hr. exec. split.
    + intros [= <-]. split; [|done]. exists p. eauto.
    + by intros [_ ->].
Qed.

Lemma disownServiceParent_run s w :
  can_disown (env s) w ->
  disownServiceParent w s = (Ok tt, State (self s) (detached w (env s))).
Proof. intros H. by apply disownServiceParent_ok. Qed.

Lemma disownServiceParent_no_parent s w :
  workers (env s) !! w ≫= w_parent = None ->
  disownServiceParent w s = (Raise AttributeError, s).
Proof.
  intros Hp. unfold disownServiceParent, parent_of. exec. rewrite Hp. by exec.
Qed.

(** A worker that is attached can be disowned. *)
Lemma attached_can_disown e w p name :
  attached e w p name -> can_disown e w.
Proof.
  intros (Hn & Hp & Hnm & Hin). exists p. split_and!; [done| |].
  - by apply list_remove_elem.
  - rewrite Hn. right. eauto.
Qed.

(** The world after a worker was disowned. *)
Lemma detached_frame e w :
  redis_kv (detached w e) = redis_kv e
  ∧ redis_sets (detached w e) = redis_sets e
  ∧ workers (detached w e) = alter (set_parent None) w (workers e).
Proof.
  unfold detached. destruct (workers e !! w ≫= w_parent) eqn:Hp; [done|].
  split_and!; [done|done|]. by rewrite set_parent_None_id.
Qed.

Lemma detached_log e w :
  can_disown e w -> log (detached w e) = log e ++ [EvDetach w].
Proof. intros (p & Hp & _). unfold detached. by rewrite Hp. Qed.

Lemma detached_named e w p name :
  workers e !! w ≫= w_parent = Some p ->
  workers e !! w ≫= w_name = Some name ->
  name ≠ "" ->
  namedServices (detached w e) = base.delete (p, name) (namedServices e).
Proof.
  intros Hp Hn Hne. unfold detached. rewrite Hp, Hn. proj.
  by rewrite decide_False.
Qed.

Lemma detached_services e w p :
  workers e !! w ≫= w_parent = Some p ->
  services (detached w e) =
    <[p := default [] (list_remove w (services_of e p))]> (services e).
Proof. intros Hp. unfold detached. by rewrite Hp. Qed.

(** A worker that is attached stays attached when another worker, of
    another name, is disowned. *)
Lemma attached_detached e a w p name :
  attached e w p name ->
  can_disown e a ->
  workers e !! a ≫= w_name ≠ Some name ->
  attached (detached a e) w p name.
Proof.
  intros (Hn & Hp & Hnm & Hin) (q & Hq & [r Hr] & _) Hne.
  assert (Hwa : w ≠ a) by (intros ->; by rewrite Hn in Hne).
  unfold attached, detached. rewrite Hq. unfold services_of in *. proj.
  split_and!.
  - by rewrite name_set_parent.
  - by rewrite parent_set_parent, decide_False.
  - destruct (workers e !! a ≫= w_name) as [n|] eqn:Hna; [|done].
    case_decide; [done|]. rewrite lookup_delete_ne; [done|]. congruence.
  - destruct (decide (q = p)) as [->|Hqp].
    + rewrite lookup_insert_eq, Hr. simpl. by eapply list_remove_other.
    + by rewrite lookup_insert_ne.
Qed.

(** Disowning takes names away, it gives none. *)
Lemma detached_named_None e w key :
  namedServices e !! key = None -> namedServices (detached w e) !! key = None.
Proof.
  intros Hk. unfold detached.
  destruct (workers e !! w ≫= w_parent) as [p|]; [|done]. proj.
  destruct (workers e !! w ≫= w_name) as [n|]; [|done].
  case_decide; [done|]. by apply lookup_delete_None; right.
Qed.



(** ** [stop] *)

Lemma _stop_application_ok s s' :
  _stop_application s = (Ok tt, s')
  ↔ (∀ a, application_worker (self s) = Some a -> can_disown (env s) a)
    ∧ s' = State (set_application_worker None (self s))
             (from_option (fun a => detached a (env s)) (env s)
                (application_worker (self s))).
Proof.
  destruct s as [[i p o t [a|]] e]; unfold _stop_application; exec.
  - destruct (disownServiceParent a _) as [[[]|ex] s1] eqn:E; exec.
    + apply disownServiceParent_ok in E as [Hc ->]. proj. split.
      * intros [= <-]. split; [|done]. by intros ? [= <-].
      * by intros [_ ->].
    + split; [done|]. intros [Hc _].
      rewrite disownServiceParent_run in E by (by apply Hc). done.
  - split; [intros [= <-]|intros [_ ->]]; done.
Qed.

Lemma _stop_transport_ok s s' :
  _stop_transport s = (Ok tt, s')
  ↔ (∀ t, transport_worker (self s) = Some t -> can_disown (env s) t)
    ∧ s' = State (set_transport_worker None (self s))
             (from_option (fun t => detached t (env s)) (env s)
                (transport_worker (self s))).
Proof.
  destruct s as [[i p o [t|] a] e]; unfold _stop_transport; exec.
  - destruct (disownServiceParent t _) as [[[]|ex] s1] eqn:E; exec.
    + apply disownServiceParent_ok in E as [Hc ->]. proj. split.
      * intros [= <-]. split; [|done]. by intros ? [= <-].
      * by intros [_ ->].
    + split; [done|]. intros [Hc _].
      rewrite disownServiceParent_run in E by (by apply Hc). done.
  - split; [intros [= <-]|intros [_ ->]]; done.
Qed.

Lemma stop_ok s s' :
  stop s = (Ok tt, s') ↔ can_stop s ∧ s' = stopped s.
Proof.
  unfold stop. rewrite bind_run.
  destruct (_stop_application s) as [[[]|ex] s1] eqn:E.
  - apply _stop_application_ok in E as [Ha ->].
    rewrite _stop_transport_ok. unfold can_stop, stopped.
    destruct s as [[i p o t a] e]. proj. naive_solver.
  - split; [done|]. intros [[Ha _] _].
    assert (_stop_application s = (Ok tt,
              State (set_application_worker None (self s))
                (from_option (fun a => detached a (env s)) (env s)
                   (application_worker (self s))))) as E'
      by (by apply _stop_application_ok).
    by rewrite E' in E.
Qed.

Lemma holds_attached_can_stop s : holds_attached s -> can_stop s.
Proof.
  intros [Ha Ht]. split.
  - intros a Hs. destruct (Ha a Hs) as [p Hp]. by eapply attached_can_disown.
  - intros t Hs. destruct (Ht t Hs) as [p Hp].
    destruct (application_worker (self s)) as [a|] eqn:Hs'; simpl.
    + destruct (Ha a eq_refl) as [q Hq].
      eapply attached_can_disown, attached_detached; [done| |].
      * by eapply attached_can_disown.
      * destruct Hq as (-> & _). intros [= E]. by apply application_id_ne in E.
    + by eapply attached_can_disown.
Qed.

Lemma stop_run s : can_stop s -> stop s = (Ok tt, stopped s).
Proof. intros H. by apply stop_ok. Qed.


Lemma stopped_handles s :
  application_worker (self (stopped s)) = None
  ∧ transport_worker (self (stopped s)) = None.
Proof. by destruct s as [[i p o t a] e]. Qed.


Lemma stopped_frame s :
  _properties (self (stopped s)) = _properties (self s)
  ∧ id (self (stopped s)) = id (self s)
  ∧ options (self (stopped s)) = options (self s)
  ∧ redis_kv (env (stopped s)) = redis_kv (env s)
  ∧ redis_sets (env (stopped s)) = redis_sets (env s)
  ∧ workers (env (stopped s)) =
      from_option (alter (set_parent None)) (fun ws => ws)
        (transport_worker (self s))
        (from_option (alter (set_parent None)) (fun ws => ws)
           (application_worker (self s)) (workers (env s))).
Proof.
  destruct s as [[i p o [t|] [a|]] e]; simpl.
  - pose proof (detached_frame e a) as (A1 & A2 & A3).
    pose proof (detached_frame (detached a e) t) as (B1 & B2 & B3).
    split_and!; congruence.
  - pose proof (detached_frame e t) as (B1 & B2 & B3). by split_and!.
  - pose proof (detached_frame e a) as (A1 & A2 & A3). by split_and!.
  - by split_and!.
Qed.

Lemma stopped_log s :
  can_stop s ->
  log (env (stopped s)) =
    log (env s)
    ++ from_option (fun w => [EvDetach w]) [] (application_worker (self s))
    ++ from_option (fun w => [EvDetach w]) [] (transport_worker (self s)).
Proof.
  intros [Ha Ht].
  destruct s as [[i p o [t|] [a|]] e]; simpl in *.
  - rewrite !detached_log by eauto. by rewrite <- (assoc_L (++)).
  - rewrite !detached_log by eauto. done.
  - rewrite !detached_log by eauto. done.
  - by rewrite (right_id_L [] (++)).
Qed.

(** Whoever was held has no parent in the stopped state. *)
Lemma stopped_parent s w :
  application_worker (self s) = Some w ∨ transport_worker (self s) = Some w ->
  workers (env (stopped s)) !! w ≫= w_parent = None.
Proof.
  intros Hw. destruct (stopped_frame s) as (_ & _ & _ & _ & _ & ->).
  assert (Hgone : ∀ ws : list worker,
            alter (set_parent None) w ws !! w ≫= w_parent = None).
  { intros ws. rewrite parent_set_parent, decide_True by done.
    by destruct (ws !! w). }
  assert (Hkeep : ∀ (ws : list worker) x,
            ws !! w ≫= w_parent = None ->
            alter (set_parent None) x ws !! w ≫= w_parent = None).
  { intros ws x Hn. rewrite parent_set_parent. case_decide as Hx; [|done].
    rewrite <- Hx. by destruct (ws !! w). }
  destruct s as [[i p o [t|] [a|]] e]; simpl in *;
    destruct Hw as [[= <-]|[= <-]]; auto.
Qed.

(** ** [start] *)

Lemma _transport_cls_name_run s d cls :
  _properties (self s) = JDict d ->
  transports_get (default JNull (d !! "type")) = Ok (Some cls) ->
  _transport_cls_name s = (Ok cls, s).
Proof.
  intros Hp Ht. unfold _transport_cls_name. exec.
  rewrite Hp. simpl. rewrite Ht. by exec.
Qed.

Lemma _transport_cls_name_invalid s d :
  _properties (self s) = JDict d ->
  transports_get (default JNull (d !! "type")) = Ok None ->
  _transport_cls_name s =
    (Raise (InvalidChannelType (default JNull (d !! "type")) ["telnet"; "xmpp"]), s).
Proof.
  intros Hp Ht. unfold _transport_cls_name. exec.
  rewrite Hp. simpl. rewrite Ht. by exec.
Qed.

Lemma _transport_config_run s d cfg :
  _properties (self s) = JDict d ->
  d !! "config" = Some (JDict cfg) ->
  _convert_unicode (JDict cfg) = Ok (JDict cfg) ->
  _transport_config s =
    (Ok (<["transport_name" := JStr (id (self s))]> cfg), s).
Proof.
  intros Hp Hc Hu. unfold _transport_config. exec.
  rewrite Hp. cbn [py_getitem]. rewrite Hc. exec. rewrite Hu. by exec.
Qed.

Lemma _transport_config_fails s d :
  _properties (self s) = JDict d ->
  (d !! "config" = None -> _transport_config s = (Raise (KeyError "config"), s))
  ∧ (∀ v, d !! "config" = Some v ->
          _convert_unicode v = Raise UnicodeEncodeError ->
          _transport_config s = (Raise UnicodeEncodeError, s))
  ∧ (∀ v, d !! "config" = Some v -> _convert_unicode v = Ok v ->
          (∀ m, v ≠ JDict m) ->
          _transport_config s = (Raise TypeError, s)).
Proof.
  intros Hp. unfold _transport_config. split_and!.
  - intros Hc. exec. rewrite Hp. cbn [py_getitem]. rewrite Hc. by exec.
  - intros v Hc Hu. exec. rewrite Hp. cbn [py_getitem]. rewrite Hc. exec.
    rewrite Hu. by exec.
  - intros v Hc Hu Hv. exec. rewrite Hp. cbn [py_getitem]. rewrite Hc. exec.
    rewrite Hu. exec. destruct v as [| | | | |m]; try done. by destruct (Hv m).
Qed.

Lemma _application_config_run s d mo :
  _properties (self s) = JDict d ->
  d !! "mo_url" = Some mo ->
  _application_config s =
    (Ok (<["mo_message_url" := mo]> (<["transport_name" := JStr (id (self s))]> ∅)), s).
Proof.
  intros Hp Hc. unfold _application_config. exec.
  rewrite Hp. cbn [py_getitem]. rewrite Hc. by exec.
Qed.

Lemma _application_config_missing s d :
  _properties (self s) = JDict d ->
  d !! "mo_url" = None ->
  _application_config s = (Raise (KeyError "mo_url"), s).
Proof.
  intros Hp Hc. unfold _application_config. exec.
  rewrite Hp. cbn [py_getitem]. rewrite Hc. by exec.
Qed.

(** The transport half of [start], with a worker made for it. *)
Lemma _start_transport_run i pr o tw aw kv sets ws sv nm lg d p cls cfg :
  pr = JDict d ->
  transports_get (default JNull (d !! "type")) = Ok (Some cls) ->
  d !! "config" = Some (JDict cfg) ->
  _convert_unicode (JDict cfg) = Ok (JDict cfg) ->
  nm !! (p, i) = None ->
  _start_transport (Some p) None
    (State (Channel i pr o tw aw) (World kv sets ws sv nm lg)) =
    (Ok tt,
     State (Channel i pr o (Some (length ws)) aw)
       (World kv sets
          (ws ++ [Worker cls (<["transport_name" := JStr i]> cfg) o
                    (Some i) (Some p)])
          (<[p := default [] (sv !! p) ++ [length ws]]> sv)
          (<[(p, i) := length ws]> nm)
          (lg ++ [EvCreate (length ws) cls; EvName (length ws) i;
                  EvAttach (length ws) p]))).
Proof.
  intros -> Ht Hc Hu Hfree.
  unfold _start_transport, _create_transport, _create_worker, create_worker.
  exec.
  rewrite (_transport_cls_name_run _ d cls) by done. exec.
  rewrite (_transport_config_run _ d cfg) by done. exec.
  rewrite setName_run by (by rewrite lookup_tail0'). exec.
  rewrite alter_tail0.
  rewrite (setServiceParent_run _ _ _ _ _ _ _ _ _ i)
    by (by rewrite ?lookup_tail0'). exec.
  rewrite alter_tail0. unfold set_parent, set_name. proj.
  by rewrite <- !(assoc_L (++)).
Qed.



(** The application half of [start]. *)
Lemma _start_application_run i pr o tw aw kv sets ws sv nm lg d p mo :
  pr = JDict d ->
  d !! "mo_url" = Some mo ->
  nm !! (p, "application:" +:+ i) = None ->
  _start_application (Some p)
    (State (Channel i pr o tw aw) (World kv sets ws sv nm lg)) =
    (Ok tt,
     State (Channel i pr o tw (Some (length ws)))
       (World kv sets
          (ws ++ [Worker "junebug.workers.MessageForwardingWorker"
                    (<["mo_message_url" := mo]>
                       (<["transport_name" := JStr i]> ∅))
                    o (Some ("application:" +:+ i)) (Some p)])
          (<[p := default [] (sv !! p) ++ [length ws]]> sv)
          (<[(p, "application:" +:+ i) := length ws]> nm)
          (lg ++ [EvCreate (length ws) "junebug.workers.MessageForwardingWorker";
                  EvName (length ws) ("application:" +:+ i);
                  EvAttach (length ws) p]))).
Proof.
  intros -> Hm Hfree.
  unfold _start_application, _create_application, _create_worker,
    create_worker, _application_cls_name, _application_id.
  exec.
  rewrite (_application_config_run _ d mo) by done. exec.
  rewrite setName_run by (by rewrite lookup_tail0'). exec.
  rewrite alter_tail0.
  rewrite (setServiceParent_run _ _ _ _ _ _ _ _ _ ("application:" +:+ i))
    by (by rewrite ?lookup_tail0'). exec.
  rewrite alter_tail0. unfold set_parent, set_name. proj.
  by rewrite <- !(assoc_L (++)).
Qed.

Lemma _start_application_no_mo_url s d service :
  _properties (self s) = JDict d ->
  d !! "mo_url" = None ->
  _start_application service s = (Raise (KeyError "mo_url"), s).
Proof.
  intros Hp Hm.
  unfold _start_application, _create_application, _application_cls_name.
  exec. by rewrite (_application_config_missing _ d).
Qed.

Lemma start_run s d p cls cfg mo :
  _properties (self s) = JDict d ->
  transports_get (default JNull (d !! "type")) = Ok (Some cls) ->
  d !! "config" = Some (JDict cfg) ->
  _convert_unicode (JDict cfg) = Ok (JDict cfg) ->
  d !! "mo_url" = Some mo ->
  namedServices (env s) !! (p, id (self s)) = None ->
  namedServices (env s) !! (p, "application:" +:+ id (self s)) = None ->
  start (Some p) None s = (Ok tt, started p cls cfg mo s).
Proof.
  intros Hp Ht Hc Hu Hm Hf1 Hf2.
  destruct s as [[i pr o tw aw] [kv sets ws sv nm lg]]. simpl in *.
  unfold start. rewrite bind_run.
  rewrite (_start_transport_run _ _ _ _ _ _ _ _ _ _ _ d p cls cfg) by done.
  rewrite (_start_application_run _ _ _ _ _ _ _ _ _ _ _ d p mo);
    [|done..|].
  2:{ rewrite lookup_insert_ne; [done|].
      intros [= E]. symmetry in E. by apply application_id_ne in E. }
  unfold started. proj.
  rewrite length_app, Nat.add_1_r, lookup_insert_eq, insert_insert_eq.
  simpl. by rewrite <- !(assoc_L (++)).
Qed.

Lemma started_frame p cls cfg mo s :
  let s' := started p cls cfg mo s in
  let n := length (workers (env s)) in
  let app := "application:" +:+ id (self s) in
  _properties (self s') = _properties (self s)
  ∧ id (self s') = id (self s)
  ∧ options (self s') = options (self s)
  ∧ transport_worker (self s') = Some n
  ∧ application_worker (self s') = Some (S n)
  ∧ redis_kv (env s') = redis_kv (env s)
  ∧ redis_sets (env s') = redis_sets (env s)
  ∧ workers (env s') =
      workers (env s) ++
        [ Worker cls (<["transport_name" := JStr (id (self s))]> cfg)
            (options (self s)) (Some (id (self s))) (Some p);
          Worker "junebug.workers.MessageForwardingWorker"
            (<["mo_message_url" := mo]>
               (<["transport_name" := JStr (id (self s))]> ∅))
            (options (self s)) (Some app) (Some p) ]
  ∧ services (env s') =
      <[p := services_of (env s) p ++ [n; S n]]> (services (env s))
  ∧ namedServices (env s') =
      <[(p, app) := S n]> (<[(p, id (self s)) := n]> (namedServices (env s)))
  ∧ log (env s') =
      log (env s) ++
        [ EvCreate n cls; EvName n (id (self s)); EvAttach n p;
          EvCreate (S n) "junebug.workers.MessageForwardingWorker";
          EvName (S n) app; EvAttach (S n) p ].
Proof. by destruct s as [c e]. Qed.

(** After [start] the two fresh workers are attached under the parent. *)
Lemma started_attached p cls cfg mo s :
  attached (env (started p cls cfg mo s)) (length (workers (env s))) p
    (id (self s))
  ∧ attached (env (started p cls cfg mo s)) (S (length (workers (env s)))) p
      ("application:" +:+ id (self s)).
Proof.
  destruct s as [[i pr o tw aw] [kv sets ws sv nm lg]].
  unfold attached, started, services_of.
  proj. split_and!; try done.
  - by rewrite lookup_tail0'.
  - by rewrite lookup_tail0'.
  - rewrite lookup_insert_ne; [by rewrite lookup_insert_eq|].
    intros [= E]. by apply (application_id_ne i).
  - rewrite lookup_insert_eq. simpl. set_solver.
  - by rewrite lookup_tail1'.
  - by rewrite lookup_tail1'.
  - by rewrite lookup_insert_eq.
  - rewrite lookup_insert_eq. simpl. set_solver.
Qed.

Lemma started_running p cls cfg mo s : running p (started p cls cfg mo s).
Proof.
  destruct (started_attached p cls cfg mo s) as [At Aa].
  exists (length (workers (env s))), (S (length (workers (env s)))).
  by destruct s as [c e].
Qed.

(** A running channel holds attached workers. *)
Lemma running_holds_attached p s : running p s -> holds_attached s.
Proof.
  intros (t & a & Ht & Ha & At & Aa). split.
  - intros a' Ha'. exists p. rewrite Ha in Ha'. by injection Ha' as <-.
  - intros t' Ht'. exists p. rewrite Ht in Ht'. by injection Ht' as <-.
Qed.

(** The names that a running channel frees when it stops. *)
Lemma stopped_named p s :
  running p s -> id (self s) ≠ "" ->
  namedServices (env (stopped s)) =
    base.delete (p, id (self s))
      (base.delete (p, "application:" +:+ id (self s)) (namedServices (env s))).
Proof.
  intros (t & a & Ht & Ha & At & Aa) Hid.
  pose proof (application_id_nonempty (id (self s))) as Happ.
  assert (attached (detached a (env s)) t p (id (self s))) as At'.
  { apply attached_detached; [done|by eapply attached_can_disown|].
    destruct Aa as (-> & _). intros [= E]. by apply application_id_ne in E. }
  destruct s as [[i pr o tw aw] e]. simpl in *. subst tw aw. simpl.
  destruct At' as (Hn & Hp & _). destruct Aa as (Hn' & Hp' & _).
  rewrite (detached_named _ t p i) by done.
  by rewrite (detached_named _ a p ("application:" +:+ i)).
Qed.


(** [start] without a worker of the caller's stops at an unregistered
    [type]. *)
Lemma start_invalid_run s d service :
  _properties (self s) = JDict d ->
  transports_get (default JNull (d !! "type")) = Ok None ->
  start service None s =
    (Raise (InvalidChannelType (default JNull (d !! "type")) ["telnet"; "xmpp"]), s).
Proof.
  intros Hp Ht. unfold start, _start_transport, _create_transport.
  rewrite !bind_assoc_run.
  by rewrite (run_bind_raise _ _ _ _ _ (_transport_cls_name_invalid s d Hp Ht)).
Qed.



(** The workers that a running channel held, after [stop]. *)
Lemma stopped_workers p s t a :
  transport_worker (self s) = Some t ->
  application_worker (self s) = Some a ->
  attached (env s) t p (id (self s)) ->
  attached (env s) a p ("application:" +:+ id (self s)) ->
  t ≠ a
  ∧ length (workers (env (stopped s))) = length (workers (env s))
  ∧ workers (env (stopped s)) !! t = set_parent None <$> workers (env s) !! t
  ∧ workers (env (stopped s)) !! a = set_parent None <$> workers (env s) !! a
  ∧ (∀ i, i ≠ t -> i ≠ a ->
          workers (env (stopped s)) !! i = workers (env s) !! i).
Proof.
  intros Ht Ha (Hn & _) (Hn' & _).
  assert (t ≠ a) as Hne.
  { intros ->. rewrite Hn in Hn'. injection Hn' as E. symmetry in E.
    by apply application_id_ne in E. }
  destruct (stopped_frame s) as (_ & _ & _ & _ & _ & ->).
  rewrite Ht, Ha. simpl. split_and!; [done|by rewrite !length_alter| | |].
  - by rewrite list_lookup_alter_eq, list_lookup_alter_ne.
  - by rewrite list_lookup_alter_ne, list_lookup_alter_eq.
  - intros i H1 H2. by rewrite !list_lookup_alter_ne.
Qed.



End hierarchy.

Section facts.
Set Default Proof Using "Type".
Context {raw : Type}.
Variable dumps : json -> raw.
Variable loads : raw -> option json.
Variable default_vumi_options : gmap string json.

Implicit Types (s : state (raw := raw)) (e : world (raw := raw)).

(** ** The store *)

Lemma save_run s : save dumps s = (Ok tt, saved dumps s).
Proof. by destruct s as [c e]. Qed.

Lemma delete_run s :
  delete s =
    (Ok tt,
     State (self s)
       (with_kv (base.delete (id (self s), "properties") (redis_kv (env s)))
          (env s))).
Proof. by destruct s as [c e]. Qed.

Lemma from_id_missing e amqp i parent :
  redis_kv e !! (i, "properties") = None ->
  from_id loads default_vumi_options amqp i parent e = (Raise ChannelNotFound, e).
Proof.
  intros Hk. unfold from_id, redis_get. exec. rewrite Hk. by exec.
Qed.

Lemma from_id_stored e amqp i parent r :
  redis_kv e !! (i, "properties") = Some r ->
  from_id loads default_vumi_options amqp i parent e =
    match loads r with
    | None => (Raise ValueError, e)
    | Some j =>
        match namedServices e !! (parent, i) with
        | None => (Raise (KeyError i), e)
        | Some t =>
            match namedServices e !! (parent, "application:" +:+ i) with
            | None => (Raise (KeyError ("application:" +:+ i)), e)
            | Some a =>
                (Ok (Channel i j (amqp ∪ default_vumi_options) (Some t) (Some a)),
                 e)
            end
        end
    end.
Proof.
  intros Hk. unfold from_id, redis_get. exec. rewrite Hk.
  destruct (loads r) as [j|]; exec; [|done].
  unfold on_object, _restore, getServiceNamed, _application_id, init. exec.
  destruct (namedServices e !! (parent, i)) as [t|]; exec; [|done].
  destruct (namedServices e !! (parent, "application:" +:+ i)) as [a|]; exec;
    done.
Qed.

(** C7. After [save] and [delete], loading the id raises
    [ChannelNotFound] although the id is still listed by [get_all]; the
    records of other ids are as before, and [delete] touches neither the
    channel's handles nor the workers. *)
Theorem delete_then_load s amqp parent :
  ∃ s',
    (save dumps;; delete) s = (Ok tt, s')
    ∧ from_id loads default_vumi_options amqp (id (self s)) parent (env s')
      = (Raise ChannelNotFound, env s')
    ∧ (∃ ids, get_all (env s') = (Ok ids, env s') ∧ id (self s) ∈ ids)
    ∧ (∀ i k, i ≠ id (self s) ->
         redis_kv (env s') !! (i, k) = redis_kv (env s) !! (i, k))
    ∧ self s' = self s
    ∧ workers (env s') = workers (env s)
    ∧ log (env s') = log (env s)
    ∧ (∃ s2, delete s = (Ok tt, s2) ∧ self s2 = self s
             ∧ workers (env s2) = workers (env s)
             ∧ log (env s2) = log (env s)
             ∧ redis_sets (env s2) = redis_sets (env s)).
Proof.
  eexists. split.
  { rewrite (run_bind_ok _ _ _ _ _ (save_run s)). apply delete_run. }
  simpl. split_and!; try done.
  - apply from_id_missing. simpl. apply lookup_delete_eq.
  - eexists. split; [reflexivity|]. simpl. rewrite lookup_insert_eq. simpl.
    set_solver.
  - intros i k Hne. simpl.
    rewrite lookup_delete_ne, lookup_insert_ne by congruence. done.
  - eexists. split; [apply delete_run|]. done.
Qed.

Lemma status_run s m :
  _properties (self s) = JDict m ->
  status s =
    (Ok (JDict (<["status" := JDict ∅]> (<["id" := JStr (id (self s))]> m))), s).
Proof.
  intros Hp. unfold status, deepcopy. exec. rewrite Hp. by exec.
Qed.

Lemma update_run s d p :
  _properties (self s) = JDict d ->
  update dumps p s =
    (when (not_None (default JNull (p !! "config")))
       (c ← gets self;
        service ← match transport_worker c with
                  | Some w => parent_of w
                  | None => raise AttributeError
                  end;
        stop;;
        start service None);;
     status) (merged_saved dumps p d s).
Proof.
  intros Hp. unfold update.
  rewrite (run_bind_ok _ _ _ _ _ (gets_run _ _)). cbv beta. rewrite Hp. simpl.
  erewrite run_bind_ok by reflexivity.
  erewrite run_bind_ok by reflexivity.
  erewrite run_bind_ok by apply save_run.
  reflexivity.
Qed.

Lemma merged_saved_frame p d s :
  let s1 := merged_saved dumps p d s in
  _properties (self s1) = JDict (p ∪ d)
  ∧ id (self s1) = id (self s)
  ∧ transport_worker (self s1) = transport_worker (self s)
  ∧ application_worker (self s1) = application_worker (self s)
  ∧ workers (env s1) = workers (env s)
  ∧ log (env s1) = log (env s)
  ∧ redis_kv (env s1) !! (id (self s), "properties") = Some (dumps (JDict (p ∪ d)))
  ∧ id (self s) ∈ default ∅ (redis_sets (env s1) !! "channels")
  ∧ options (self s1) = options (self s)
  ∧ services (env s1) = services (env s)
  ∧ namedServices (env s1) = namedServices (env s).
Proof.
  destruct s as [c e]. simpl. split_and!; try done.
  - apply lookup_insert_eq.
  - rewrite lookup_insert_eq. simpl. set_solver.
Qed.

(** C10 (as amended). With a [config] entry that is not [None] and no
    transport worker, [update] raises [AttributeError] when it asks for
    the worker's parent; by then the merged properties are in the channel
    and in the store, and no worker has been touched.  With a transport
    worker the parent is read and [update] goes on to [stop]. *)
Theorem update_not_running s d p v :
  _properties (self s) = JDict d ->
  p !! "config" = Some v -> v ≠ JNull ->
  (transport_worker (self s) = None ->
   ∃ s',
     update dumps p s = (Raise AttributeError, s')
     ∧ _properties (self s') = JDict (p ∪ d)
     ∧ redis_kv (env s') !! (id (self s), "properties")
       = Some (dumps (JDict (p ∪ d)))
     ∧ id (self s) ∈ default ∅ (redis_sets (env s') !! "channels")
     ∧ workers (env s') = workers (env s)
     ∧ log (env s') = log (env s))
  ∧ (∀ w, transport_worker (self s) = Some w ->
      update dumps p s =
        (stop;; start (workers (env s) !! w ≫= w_parent) None;; status)
          (merged_saved dumps p d s)).
Proof.
  intros Hp Hc Hv.
  assert (Hn : not_None (default JNull (p !! "config")) = true).
  { rewrite Hc. simpl. by destruct v. }
  pose proof (merged_saved_frame p d s)
    as (F1 & F2 & F3 & F4 & F5 & F6 & F7 & F8 & F9 & _).
  split.
  - intros Ht. exists (merged_saved dumps p d s). split_and!; try done.
    rewrite (update_run s d p Hp), Hn. simpl.
    rewrite !bind_assoc_run, (run_bind_ok _ _ _ _ _ (gets_run _ _)).
    cbv beta. rewrite F3, Ht.
    rewrite !bind_assoc_run. by erewrite run_bind_raise by reflexivity.
  - intros w Ht.
    rewrite (update_run s d p Hp), Hn. simpl.
    rewrite !bind_assoc_run, (run_bind_ok _ _ _ _ _ (gets_run _ _)).
    cbv beta. rewrite F3, Ht.
    rewrite !bind_assoc_run. erewrite run_bind_ok by reflexivity.
    rewrite F5. by rewrite !bind_assoc_run.
Qed.

(** Being attached is a matter of the service hierarchy only. *)
Lemma attached_ext e e' w p name :
  workers e' = workers e -> services e' = services e ->
  namedServices e' = namedServices e ->
  attached e w p name -> attached e' w p name.
Proof.
  clear dumps loads default_vumi_options.
  unfold attached, services_of. by intros -> -> ->.
Qed.


Hypothesis loads_dumps : ∀ j, loads (dumps j) = Some j.


End facts.

(** The running sample channel holds its two workers, attached. *)
Lemma running_state_attached :
  attached (env running_state) 0 0 "c1"
  ∧ attached (env running_state) 1 0 "application:c1".
Proof. split; apply (bool_decide_unpack _); vm_compute; exact I. Defined.

Lemma running_state_holds : holds_attached running_state.
Proof.
  destruct running_state_attached as [At Aa].
  split; intros w Hw; vm_compute in Hw; injection Hw as <-; by exists 0.
Defined.






(** C10, witness. *)
Lemma update_not_running_witness :
  ∃ s', update plain_dumps new_config fresh_state = (Raise AttributeError, s')
        ∧ _properties (self s') = JDict (new_config ∪ sample_properties)
        ∧ redis_kv (env s') !! ("c1", "properties")
          = Some (JDict (new_config ∪ sample_properties))
        ∧ workers (env s') = [].
Proof.
  destruct (proj1 (update_not_running plain_dumps fresh_state sample_properties
                     new_config (JDict (<["port" := JNum 23]> ∅))
                     eq_refl eq_refl ltac:(discriminate)) eq_refl)
    as (s' & H1 & H2 & H3 & _ & H4 & _).
  exists s'. split_and!; [exact H1|exact H2|exact H3|exact H4].
Defined.






(** A [type] that is a list is not hashable: the lookup in the registry
    raises [TypeError]. *)
Lemma start_list_type_TypeError :
  (start (Some 0) None list_state).1 = Raise TypeError.
Proof. vm_compute. reflexivity. Qed.

(** C10, counterexample. [{'config': None}] has a [config] key, and
    [update] on the channel that was never started returns its status. *)
Lemma update_null_config_unstarted :
  transport_worker (self fresh_state) = None
  ∧ null_config !! "config" = Some JNull
  ∧ (update plain_dumps null_config fresh_state).1
    = Ok (JDict (<["status" := JDict ∅]>
                   (<["id" := JStr "c1"]> (null_config ∪ sample_properties)))).
Proof. split_and!; vm_compute; reflexivity. Qed.

End ChanFacts.
(** * Further properties of the translators *)

Module TranslatorExtra.
Import Translator TranslatorFacts.

Lemma external_of_lookup d k :
  external_of d !! k =
    if decide (k = "channel_data") then Some (default VNone (d !! "helper_metadata"))
    else if decide (k = "content") then Some (default VNone (d !! "content"))
    else if decide (k = "reply_to") then Some (default VNone (d !! "in_reply_to"))
    else if decide (k = "timestamp") then Some (default VNone (d !! "timestamp"))
    else if decide (k = "channel_id") then Some (default VNone (d !! "transport_name"))
    else if decide (k = "message_id") then Some (default VNone (d !! "message_id"))
    else if decide (k = "from") then Some (default VNone (d !! "from_addr"))
    else if decide (k = "to") then Some (default VNone (d !! "to_addr"))
    else None.
Proof.
  unfold external_of.
  repeat case_decide; subst;
    repeat first [ rewrite lookup_insert_eq | rewrite lookup_insert_ne by done ];
    done.
Qed.

(** X1. [api_from_message] renames the fields of a complete internal
    message: [to], [from], [message_id], [channel_id], [timestamp],
    [reply_to] and [content] are its [to_addr], [from_addr], [message_id],
    [transport_name], [timestamp], [in_reply_to] and [content];
    [channel_data] is the very object that is its [helper_metadata]; the
    result has these eight fields and no other. *)
Theorem api_from_message_fields (h : heap) m d hl hd :
  h !! m = Some (ODict d) ->
  is_Some (d !! "to_addr") -> is_Some (d !! "from_addr") ->
  is_Some (d !! "message_id") -> is_Some (d !! "transport_name") ->
  is_Some (d !! "timestamp") -> is_Some (d !! "in_reply_to") ->
  is_Some (d !! "content") ->
  d !! "helper_metadata" = Some (VRef hl) ->
  h !! hl = Some (ODict hd) -> hl ≠ m ->
  ∃ h' E,
    api_from_message (VRef m) h = (Ok (VRef (length h)), h')
    ∧ h' !! length h = Some (ODict E)
    ∧ E !! "to" = d !! "to_addr"
    ∧ E !! "from" = d !! "from_addr"
    ∧ E !! "message_id" = d !! "message_id"
    ∧ E !! "channel_id" = d !! "transport_name"
    ∧ E !! "timestamp" = d !! "timestamp"
    ∧ E !! "reply_to" = d !! "in_reply_to"
    ∧ E !! "content" = d !! "content"
    ∧ E !! "channel_data" = Some (VRef hl)
    ∧ dom E = external_fields.
Proof.
  intros Hm [v1 H1] [v2 H2] [v3 H3] [v4 H4] [v5 H5] [v6 H6] [v7 H7] H8 Hh Hne.
  rewrite (api_from_message_run h m d hl hd) by (rewrite ?H1, ?H2, ?H3, ?H4, ?H5, ?H6, ?H7; eauto).
  pose proof (lookup_lt_Some _ _ _ Hh) as Hlt.
  eexists _, (external_of d). split; [reflexivity|].
  split_and!;
    [ rewrite list_lookup_insert_ne by lia; by apply lookup_tail0
    | rewrite external_of_lookup, ?H1, ?H2, ?H3, ?H4, ?H5, ?H6, ?H7, ?H8; done ..
    | apply external_of_dom ].
Qed.

(** X2. An internal message that lacks one of the keys [api_from_message]
    reads makes it raise [KeyError] for the first such key, in the order
    [to_addr], [from_addr], [message_id], [transport_name], [timestamp],
    [in_reply_to], [content], [helper_metadata]; the message and every
    other object of the initial heap are untouched. *)
Theorem api_from_message_missing (h : heap) m d i k :
  h !! m = Some (ODict d) ->
  api_required !! i = Some k ->
  (∀ j k', j < i -> api_required !! j = Some k' -> is_Some (d !! k')) ->
  d !! k = None ->
  (api_from_message (VRef m) h).1 = Raise (KeyError k)
  ∧ ∀ l, l < length h -> (api_from_message (VRef m) h).2 !! l = h !! l.
Proof.
  intros Hm Hi Hpre Hk. unfold api_from_message.
  run new_dict_run.
  destruct i as [|[|[|[|[|[|[|[|i]]]]]]]]; simpl in Hi; [..|discriminate];
    injection Hi as <-;
    try destruct (Hpre 0 _ ltac:(lia) eq_refl) as [v0 Hv0];
    try destruct (Hpre 1 _ ltac:(lia) eq_refl) as [v1 Hv1];
    try destruct (Hpre 2 _ ltac:(lia) eq_refl) as [v2 Hv2];
    try destruct (Hpre 3 _ ltac:(lia) eq_refl) as [v3 Hv3];
    try destruct (Hpre 4 _ ltac:(lia) eq_refl) as [v4 Hv4];
    try destruct (Hpre 5 _ ltac:(lia) eq_refl) as [v5 Hv5];
    try destruct (Hpre 6 _ ltac:(lia) eq_refl) as [v6 Hv6];
    repeat (run getitem_run; run setitem_run);
    erewrite run_bind_raise by (eapply getitem_miss; [heap_lookup|done]);
    (split; [done|]); intros l Hl; simpl; by rewrite lookup_app_l.
Qed.

(** X3. The internal message built by [message_from_api]: its
    [transport_name] is the channel id, whatever the external message
    holds; [to_addr] ([None] without [to]), [from_addr] and [content] come
    from the external message; [helper_metadata] is the channel data
    object; [continue_session] and [session_event] are present exactly when
    the channel data carries a value other than [None] for them; and
    [continue_session] is its only key outside [allowed_message_fields]. *)
Theorem message_from_api_fields (h : heap) id m d cl cd :
  h !! m = Some (ODict d) ->
  is_Some (d !! "from") -> is_Some (d !! "content") ->
  channel_data_at h m d cl cd ->
  ∃ h' D,
    message_from_api id (VRef m) h = (Ok (VRef (length h)), h')
    ∧ h' !! length h = Some (ODict D)
    ∧ D !! "transport_name" = Some (VStr id)
    ∧ D !! "to_addr" = Some (default VNone (d !! "to"))
    ∧ D !! "from_addr" = d !! "from"
    ∧ D !! "content" = d !! "content"
    ∧ D !! "helper_metadata" = Some (VRef cl)
    ∧ D !! "continue_session" = carried "continue_session" cd
    ∧ D !! "session_event" = carried "session_event" cd
    ∧ ∀ k, is_Some (D !! k) ->
           k = "continue_session" ∨ k ∈ Chan.allowed_message_fields.
Proof.
  intros Hm Hf Hc Hcd.
  rewrite (message_from_api_run h id m d cl cd Hm Hf Hc Hcd).
  destruct Hf as [f Hf], Hc as [c Hc].
  assert (Hne : cl ≠ length h).
  { destruct (channel_data_at_cases _ _ _ _ _ Hm Hcd) as [(? & ? & ?)|(-> & ->)]; lia. }
  eexists _, (internal_of id d cd cl). split; [reflexivity|].
  split_and!;
    [ rewrite list_lookup_insert_ne by done; by apply lookup_tail0
    | rewrite internal_of_lookup, ?Hf, ?Hc; done .. | ].
  intros k. rewrite internal_of_lookup. unfold Chan.allowed_message_fields.
  repeat case_decide; subst; intros Hk; try (by destruct Hk);
    first [ by left | right; set_solver ].
Qed.

(** [o.get(k)] on a value that is not a dictionary. *)
Lemma get_not_dict (h : heap) v k :
  match v with
  | VRef l => ∃ x, h !! l = Some (OList x)
  | _ => True
  end ->
  get v k h = (Raise AttributeError, h).
Proof.
  intros Hv. unfold get, get_default, as_dict, mbind, M_bind.
  destruct v as [| | | |l]; try done. destruct Hv as [x ->]. done.
Qed.

(** X4. A [channel_data] entry that is not a dictionary ([None], a scalar
    or a list) makes [message_from_api] raise [AttributeError]; the message
    and every other object of the initial heap are untouched. *)
Theorem message_from_api_bad_channel_data (h : heap) id m d v :
  h !! m = Some (ODict d) ->
  is_Some (d !! "from") -> is_Some (d !! "content") ->
  d !! "channel_data" = Some v ->
  match v with
  | VRef l => ∃ x, h !! l = Some (OList x)
  | _ => True
  end ->
  (message_from_api id (VRef m) h).1 = Raise AttributeError
  ∧ ∀ l, l < length h -> (message_from_api id (VRef m) h).2 !! l = h !! l.
Proof.
  intros Hm [f Hf] [c Hc] Hcd Hv. unfold message_from_api.
  run new_dict_run. run get_run. run setitem_run.
  run getitem_run. run setitem_run. run getitem_run. run setitem_run.
  run setitem_run. run new_dict_run. run get_default_run.
  rewrite Hcd. simpl.
  erewrite run_bind_raise.
  2:{ apply get_not_dict. destruct v as [| | | |l]; try done.
      destruct Hv as [x Hx]. exists x.
      rewrite lookup_app_l by (by apply lookup_lt_Some in Hx). done. }
  split; [done|]. intros l Hl. simpl. by rewrite lookup_app_l.
Qed.

(** X5. When the internal message carries neither [continue_session] nor
    [session_event], [api_from_message] only allocates its result: no
    object of the initial heap is written, and [helper_metadata] is handed
    over as [channel_data] whatever it is.  When the message carries one of
    them and [helper_metadata] is [None] or a scalar, the assignment into
    it raises [TypeError]. *)
Theorem api_from_message_helper_metadata (h : heap) m d :
  h !! m = Some (ODict d) ->
  Forall (fun k => is_Some (d !! k)) api_required ->
  (carried "continue_session" d = None -> carried "session_event" d = None ->
   api_from_message (VRef m) h
   = (Ok (VRef (length h)), h ++ [ODict (external_of d)]))
  ∧ (is_Some (carried "continue_session" d) ∨ is_Some (carried "session_event" d) ->
     match default VNone (d !! "helper_metadata") with
     | VRef _ => False
     | _ => True
     end ->
     (api_from_message (VRef m) h).1 = Raise TypeError).
Proof.
  intros Hm Hreq. unfold api_required in Hreq.
  repeat match goal with
         | H : Forall _ (_ :: _) |- _ =>
             apply Forall_cons in H as [[? ?] H]
         end.
  split.
  - intros Hcs Hse. unfold api_from_message.
    run new_dict_run.
    do 8 (run getitem_run; run setitem_run).
    run get_run. rewrite (carried_None _ _ Hcs). simpl.
    rewrite (run_bind_ok _ _ _ _ _ (mret_run _ _)).
    run get_run. rewrite (carried_None _ _ Hse). simpl.
    rewrite (run_bind_ok _ _ _ _ _ (mret_run _ _)).
    rewrite mret_run. unfold external_of.
    repeat match goal with H : d !! _ = Some _ |- _ => rewrite H; clear H end.
    done.
  - intros Hcar Hhm. unfold api_from_message.
    run new_dict_run.
    do 8 (run getitem_run; run setitem_run).
    assert (Hset : ∀ (H' : heap) k v hm,
              match hm with VRef _ => False | _ => True end ->
              setitem hm k v H' = (Raise TypeError, H')).
    { intros H' k v hm Hx. by destruct hm. }
    match goal with H : d !! "helper_metadata" = Some _ |- _ =>
      rewrite H in Hhm; simpl in Hhm end.
    run get_run.
    destruct (carried "continue_session" d) as [v|] eqn:Hcs.
    + apply carried_Some in Hcs as [Hk Hv]. rewrite Hk. simpl. rewrite Hv. simpl.
      erewrite run_bind_raise; [done|].
      run getitem_run. run getitem_run. by apply Hset.
    + rewrite (carried_None _ _ Hcs). simpl.
      rewrite (run_bind_ok _ _ _ _ _ (mret_run _ _)).
      destruct Hcar as [[? [=]]|[v Hse]].
      apply carried_Some in Hse as [Hk Hv].
      run get_run. rewrite Hk. simpl. rewrite Hv. simpl.
      erewrite run_bind_raise; [done|].
      run getitem_run. run getitem_run. by apply Hset.
Qed.

Lemma carried_stripped k (cd : gmap string value) :
  k = "continue_session" ∨ k = "session_event" ->
  carried k (stripped cd) = None.
Proof.
  intros Hk. unfold carried at 1. rewrite stripped_lookup.
  rewrite decide_True by done.
  destruct (carried k cd) as [v|] eqn:E; [done|].
  apply carried_None in E. destruct (cd !! k) as [w|]; [|done].
  simpl in E. by rewrite E.
Qed.

(** X6. Translating the same external message a second time loses what the
    first translation moved out of its channel data: after one
    [message_from_api], a second one succeeds and returns a message without
    [continue_session] and without [session_event], whatever the channel
    data carried at the start. *)
Theorem message_from_api_twice (h : heap) id id' m d cl cd :
  h !! m = Some (ODict d) ->
  is_Some (d !! "from") -> is_Some (d !! "content") ->
  d !! "channel_data" = Some (VRef cl) ->
  h !! cl = Some (ODict cd) -> cl ≠ m ->
  ∃ h1 h2 D,
    message_from_api id (VRef m) h = (Ok (VRef (length h)), h1)
    ∧ message_from_api id' (VRef m) h1 = (Ok (VRef (length h1)), h2)
    ∧ h2 !! length h1 = Some (ODict D)
    ∧ D !! "continue_session" = None
    ∧ D !! "session_event" = None
    ∧ D !! "helper_metadata" = Some (VRef cl).
Proof.
  intros Hm Hf Hc Hcd Hcl Hne.
  pose proof (lookup_lt_Some _ _ _ Hm) as Hlm.
  pose proof (lookup_lt_Some _ _ _ Hcl) as Hlc.
  assert (Hat : channel_data_at h m d cl cd).
  { unfold channel_data_at. by rewrite Hcd. }
  rewrite (message_from_api_run h id m d cl cd Hm Hf Hc Hat).
  set (h1 := <[cl:=ODict (stripped cd)]>
               (h ++ [ODict (internal_of id d cd cl); ODict ∅])).
  assert (Hlen : length h1 = S (S (length h))).
  { unfold h1. rewrite length_insert, length_app. simpl. lia. }
  assert (Hm1 : h1 !! m = Some (ODict d)).
  { unfold h1. rewrite list_lookup_insert_ne by done. by rewrite lookup_app_l. }
  assert (Hc1 : h1 !! cl = Some (ODict (stripped cd))).
  { unfold h1. apply list_lookup_insert_eq. rewrite length_app. lia. }
  assert (Hat1 : channel_data_at h1 m d cl (stripped cd)).
  { unfold channel_data_at. by rewrite Hcd. }
  exists h1.
  rewrite (message_from_api_run h1 id' m d cl (stripped cd) Hm1 Hf Hc Hat1).
  eexists _, (internal_of id' d (stripped cd) cl).
  split_and!; [reflexivity|reflexivity| | | |].
  - rewrite list_lookup_insert_ne by lia. by apply lookup_tail0.
  - rewrite internal_of_lookup. simpl. apply carried_stripped. by left.
  - rewrite internal_of_lookup. simpl. apply carried_stripped. by right.
  - by rewrite internal_of_lookup.
Qed.

(** X7. [send_message] translates before anything else: an external
    message without [from], or with [from] and without [content], is
    refused with the [KeyError] of the missing field whatever the message
    layer and the sender are, and the objects of the initial heap are
    untouched. *)
Theorem send_message_checks_first layer sender (h : heap) id m d :
  h !! m = Some (ODict d) ->
  (d !! "from" = None ->
   (send_message layer sender id (VRef m) h).1 = Raise (KeyError "from")
   ∧ ∀ l, l < length h ->
          (send_message layer sender id (VRef m) h).2 !! l = h !! l)
  ∧ (is_Some (d !! "from") -> d !! "content" = None ->
     (send_message layer sender id (VRef m) h).1 = Raise (KeyError "content")
     ∧ ∀ l, l < length h ->
            (send_message layer sender id (VRef m) h).2 !! l = h !! l).
Proof.
  intros Hm. split.
  - intros Hf. unfold send_message.
    erewrite run_bind_raise.
    2:{ unfold message_from_api.
        run new_dict_run. run get_run. run setitem_run.
        erewrite run_bind_raise; [reflexivity|].
        eapply getitem_miss; [heap_lookup|done]. }
    split; [done|]. intros l Hl. simpl. by rewrite lookup_app_l.
  - intros [f Hf] Hc. unfold send_message.
    erewrite run_bind_raise.
    2:{ unfold message_from_api.
        run new_dict_run. run get_run. run setitem_run.
        run getitem_run. run setitem_run.
        erewrite run_bind_raise; [reflexivity|].
        eapply getitem_miss; [heap_lookup|done]. }
    split; [done|]. intros l Hl. simpl. by rewrite lookup_app_l.
Qed.

(** *** Witnesses *)

Ltac present := eexists; vm_compute; reflexivity.

Ltac all_present :=
  unfold api_required;
  repeat first [ apply List.Forall_nil | apply List.Forall_cons; [present|] ].

Ltac sample_channel_data_at :=
  unfold channel_data_at;
  change (sample_message !! "channel_data") with (Some (VRef 1));
  split; [reflexivity|]; split; [reflexivity|]; lia.

(** X1, witness. *)
Lemma api_from_message_fields_witness :
  ∃ h' E,
    api_from_message (VRef 0) sample_internal = (Ok (VRef 2), h')
    ∧ h' !! 2 = Some (ODict E)
    ∧ E !! "to" = sample_internal_message !! "to_addr"
    ∧ E !! "from" = sample_internal_message !! "from_addr"
    ∧ E !! "message_id" = sample_internal_message !! "message_id"
    ∧ E !! "channel_id" = sample_internal_message !! "transport_name"
    ∧ E !! "timestamp" = sample_internal_message !! "timestamp"
    ∧ E !! "reply_to" = sample_internal_message !! "in_reply_to"
    ∧ E !! "content" = sample_internal_message !! "content"
    ∧ E !! "channel_data" = Some (VRef 1)
    ∧ dom E = external_fields.
Proof.
  apply (api_from_message_fields sample_internal 0 sample_internal_message 1 ∅);
    [reflexivity|present..|reflexivity|reflexivity|lia].
Defined.

(** X2, witness. *)
Lemma api_from_message_missing_witness :
  (api_from_message (VRef 0) untimed_internal).1 = Raise (KeyError "timestamp")
  ∧ ∀ l, l < 1 -> (api_from_message (VRef 0) untimed_internal).2 !! l
                  = untimed_internal !! l.
Proof.
  apply (api_from_message_missing untimed_internal 0 untimed_internal_message
           4 "timestamp").
  - reflexivity.
  - reflexivity.
  - intros [|[|[|[|j]]]] k' Hj; [intros [= <-]; present..|lia].
  - reflexivity.
Defined.

(** X3, witness. *)
Lemma message_from_api_fields_witness :
  ∃ h' D,
    message_from_api "c1" (VRef 0) sample_heap = (Ok (VRef 2), h')
    ∧ h' !! 2 = Some (ODict D)
    ∧ D !! "transport_name" = Some (VStr "c1")
    ∧ D !! "to_addr" = Some VNone
    ∧ D !! "from_addr" = Some (VStr "alice")
    ∧ D !! "content" = Some (VStr "hi")
    ∧ D !! "helper_metadata" = Some (VRef 1)
    ∧ D !! "continue_session" = Some (VBool true)
    ∧ D !! "session_event" = None
    ∧ ∀ k, is_Some (D !! k) ->
           k = "continue_session" ∨ k ∈ Chan.allowed_message_fields.
Proof.
  apply (message_from_api_fields sample_heap "c1" 0 sample_message 1
           sample_channel_data);
    [reflexivity|present|present|sample_channel_data_at].
Defined.

(** X4, witness. *)
Lemma message_from_api_bad_channel_data_witness :
  (message_from_api "c1" (VRef 0) nodata_heap).1 = Raise AttributeError
  ∧ ∀ l, l < 1 -> (message_from_api "c1" (VRef 0) nodata_heap).2 !! l
                  = nodata_heap !! l.
Proof.
  apply (message_from_api_bad_channel_data nodata_heap "c1" 0 nodata_message VNone);
    [reflexivity|present|present|reflexivity|exact I].
Defined.

(** X5, witness. *)
Lemma api_from_message_helper_metadata_witness :
  api_from_message (VRef 0) plain_internal
  = (Ok (VRef 1), plain_internal ++ [ODict (external_of plain_internal_message)])
  ∧ (api_from_message (VRef 0) closing_internal).1 = Raise TypeError.
Proof.
  split.
  - assert (HF : Forall (fun k => is_Some (plain_internal_message !! k)) api_required)
      by all_present.
    apply (api_from_message_helper_metadata plain_internal 0
             plain_internal_message eq_refl HF); reflexivity.
  - assert (HF : Forall (fun k => is_Some (closing_internal_message !! k)) api_required)
      by all_present.
    apply (api_from_message_helper_metadata closing_internal 0
             closing_internal_message eq_refl HF).
    + right. present.
    + exact I.
Defined.

(** X6, witness. *)
Lemma message_from_api_twice_witness :
  ∃ h1 h2 D,
    message_from_api "c1" (VRef 0) sample_heap = (Ok (VRef 2), h1)
    ∧ message_from_api "c1" (VRef 0) h1 = (Ok (VRef (length h1)), h2)
    ∧ h2 !! length h1 = Some (ODict D)
    ∧ D !! "continue_session" = None
    ∧ D !! "session_event" = None
    ∧ D !! "helper_metadata" = Some (VRef 1).
Proof.
  apply (message_from_api_twice sample_heap "c1" "c1" 0 sample_message 1
           sample_channel_data);
    [reflexivity|present|present|reflexivity|reflexivity|lia].
Defined.

(** X7, witness. *)
Lemma send_message_checks_first_witness :
  (send_message sample_layer echo_sender "c1" (VRef 0) nofrom_heap).1
  = Raise (KeyError "from")
  ∧ (send_message sample_layer echo_sender "c1" (VRef 0) nocontent_heap).1
    = Raise (KeyError "content").
Proof.
  split.
  - apply (send_message_checks_first sample_layer echo_sender nofrom_heap "c1" 0
             nofrom_message eq_refl). reflexivity.
  - apply (send_message_checks_first sample_layer echo_sender nocontent_heap "c1" 0
             nocontent_message eq_refl); [present|reflexivity].
Defined.

End TranslatorExtra.





(** * Further properties of the channel *)

Module ChanExtra.
Import Chan ChanFacts.

Section services.
Context {raw : Type}.

Implicit Types (s : state (raw := raw)) (e : world (raw := raw)).

(** X8. [status] changes neither the channel nor its environment.  Its
    answer holds the channel id under [id] and an empty mapping under
    [status], overriding entries of these names in the properties, and the
    properties' own value under every other key.  Properties that are not a
    mapping make it raise [TypeError]. *)
Theorem status_reads_only s :
  (∀ m, _properties (self s) = JDict m ->
     ∃ r, status s = (Ok (JDict r), s)
          ∧ r !! "id" = Some (JStr (id (self s)))
          ∧ r !! "status" = Some (JDict ∅)
          ∧ ∀ k, k ≠ "id" -> k ≠ "status" -> r !! k = m !! k)
  ∧ ((∀ m, _properties (self s) ≠ JDict m) -> status s = (Raise TypeError, s)).
Proof.
  split.
  - intros m Hp. rewrite (status_run s m Hp). eexists. split; [done|].
    split_and!.
    + by rewrite lookup_insert_ne, lookup_insert_eq.
    + by rewrite lookup_insert_eq.
    + intros k H1 H2. by rewrite !lookup_insert_ne.
  - intros Hp. unfold status, mbind, M_bind, gets, liftR, deepcopy.
    destruct (_properties (self s)) as [| | | | |m] eqn:E; try done.
    by destruct (Hp m).
Qed.

(** X21. [_convert_unicode] gives back the data it was given or raises
    [UnicodeEncodeError]: it gives back text exactly when the text is
    ASCII, a list exactly when it gives back every element, and a mapping
    exactly when every key is ASCII and it gives back every value. *)
Theorem convert_unicode_cases :
  (∀ j, _convert_unicode j = Ok j
        ∨ _convert_unicode j = Raise UnicodeEncodeError)
  ∧ (∀ t, _convert_unicode (JStr t) = Ok (JStr t) ↔ ascii_text t = true)
  ∧ (∀ l, _convert_unicode (JList l) = Ok (JList l)
          ↔ Forall (fun v => _convert_unicode v = Ok v) l)
  ∧ (∀ d, _convert_unicode (JDict d) = Ok (JDict d)
          ↔ ∀ k v, d !! k = Some v ->
                   ascii_text k = true ∧ _convert_unicode v = Ok v).
Proof.
  split_and!.
  - apply _convert_unicode_keep.
  - intros t. simpl. destruct (str_cases t) as [[-> ->]|[-> ->]]; by simpl.
  - apply _convert_unicode_list.
  - apply _convert_unicode_dict.
Qed.

(** X11. [_transport_config] answers with a fresh mapping whose
    [transport_name] is the channel id, overriding a [transport_name] of
    the stored configuration, and whose other entries are those of the
    stored [config], which must be ASCII throughout; the channel's
    properties are not changed.  Without a [config] entry it raises
    [KeyError]; with one that holds text that is not ASCII,
    [UnicodeEncodeError]; with one that is not a mapping, [TypeError]. *)
Theorem transport_config_cases s d :
  _properties (self s) = JDict d ->
  (d !! "config" = None -> _transport_config s = (Raise (KeyError "config"), s))
  ∧ (∀ v, d !! "config" = Some v ->
          _convert_unicode v = Raise UnicodeEncodeError ->
          _transport_config s = (Raise UnicodeEncodeError, s))
  ∧ (∀ v, d !! "config" = Some v -> _convert_unicode v = Ok v ->
          (∀ m, v ≠ JDict m) ->
          _transport_config s = (Raise TypeError, s))
  ∧ (∀ m, d !! "config" = Some (JDict m) ->
          _convert_unicode (JDict m) = Ok (JDict m) ->
          ∃ r, _transport_config s = (Ok r, s)
               ∧ r !! "transport_name" = Some (JStr (id (self s)))
               ∧ ∀ k, k ≠ "transport_name" -> r !! k = m !! k).
Proof.
  intros Hp. destruct (_transport_config_fails s d Hp) as (H1 & H2 & H3).
  split_and!; [done|done|done|].
  intros m Hc Hu. rewrite (_transport_config_run s d m Hp Hc Hu).
  eexists. split; [done|]. split.
  - by rewrite lookup_insert_eq.
  - intros k Hk. by rewrite lookup_insert_ne.
Qed.

(** X12. With a registered [type], [start] fails before any worker is
    created when the [config] is unusable: [KeyError] when it is missing,
    [UnicodeEncodeError] when it holds text that is not ASCII, and
    [TypeError] when it is not a mapping.  The channel and its environment
    are as they were. *)
Theorem start_without_config s d service cls :
  _properties (self s) = JDict d ->
  transports_get (default JNull (d !! "type")) = Ok (Some cls) ->
  (d !! "config" = None ->
   start service None s = (Raise (KeyError "config"), s))
  ∧ (∀ v, d !! "config" = Some v ->
          _convert_unicode v = Raise UnicodeEncodeError ->
          start service None s = (Raise UnicodeEncodeError, s))
  ∧ (∀ v, d !! "config" = Some v -> _convert_unicode v = Ok v ->
          (∀ m, v ≠ JDict m) ->
          start service None s = (Raise TypeError, s)).
Proof.
  intros Hp Ht.
  destruct (_transport_config_fails s d Hp) as (H1 & H2 & H3).
  assert (Hrun : ∀ ex, _transport_config s = (Raise ex, s) ->
            start service None s = (Raise ex, s)).
  { intros ex E. unfold start, _start_transport, _create_transport.
    rewrite !bind_assoc_run.
    rewrite (run_bind_ok _ _ _ _ _ (_transport_cls_name_run s d cls Hp Ht)).
    cbv beta. rewrite !bind_assoc_run.
    by rewrite (run_bind_raise _ _ _ _ _ E). }
  split_and!.
  - intros Hc. by apply Hrun, H1.
  - intros v Hc Hu. by eapply Hrun, H2.
  - intros v Hc Hu Hv. by eapply Hrun, H3.
Qed.

(** X13. [start] is not atomic.  With a registered [type], an ASCII
    mapping [config] and the channel's name free under the parent, but no
    [mo_url], it raises [KeyError] only after the transport worker has
    been created, named and attached: the channel is left holding that
    worker, its application handle is as before, and no application worker
    exists. *)
Theorem start_without_mo_url s d p cls cfg :
  _properties (self s) = JDict d ->
  transports_get (default JNull (d !! "type")) = Ok (Some cls) ->
  d !! "config" = Some (JDict cfg) ->
  _convert_unicode (JDict cfg) = Ok (JDict cfg) ->
  d !! "mo_url" = None ->
  namedServices (env s) !! (p, id (self s)) = None ->
  let n := length (workers (env s)) in
  ∃ s',
    start (Some p) None s = (Raise (KeyError "mo_url"), s')
    ∧ transport_worker (self s') = Some n
    ∧ application_worker (self s') = application_worker (self s)
    ∧ workers (env s') =
        workers (env s) ++
          [ Worker cls (<["transport_name" := JStr (id (self s))]> cfg)
              (options (self s)) (Some (id (self s))) (Some p) ]
    ∧ attached (env s') n p (id (self s))
    ∧ log (env s') =
        log (env s) ++ [EvCreate n cls; EvName n (id (self s)); EvAttach n p]
    ∧ redis_kv (env s') = redis_kv (env s).
Proof.
  intros Hp Ht Hc Hu Hm Hfree n.
  destruct s as [[i pr o tw aw] [kv sets ws sv nm lg]]. simpl in *.
  eexists. split.
  { unfold start. rewrite bind_run.
    rewrite (_start_transport_run _ _ _ _ _ _ _ _ _ _ _ d p cls cfg) by done.
    by apply (_start_application_no_mo_url _ d). }
  proj. split_and!; try done.
  unfold attached, services_of. proj. unfold n.
  rewrite !lookup_tail0', !lookup_insert_eq. simpl.
  split_and!; [done|done|done|set_solver].
Qed.


(** X15. With valid properties and the channel's two names free under
    the parent, [start] succeeds and leaves the store and the properties
    alone: it appends a transport worker of the class registered for
    [type], configured with the [config] plus [transport_name], and an
    application worker configured with [transport_name] and the [mo_url],
    both built with the channel's options, named [id] and
    ["application:" + id], attached under the parent and held by the
    channel; transport first. *)
Theorem start_creates_both s d p cls cfg mo :
  _properties (self s) = JDict d ->
  transports_get (default JNull (d !! "type")) = Ok (Some cls) ->
  d !! "config" = Some (JDict cfg) ->
  _convert_unicode (JDict cfg) = Ok (JDict cfg) ->
  d !! "mo_url" = Some mo ->
  namedServices (env s) !! (p, id (self s)) = None ->
  namedServices (env s) !! (p, "application:" +:+ id (self s)) = None ->
  let n := length (workers (env s)) in
  let app := "application:" +:+ id (self s) in
  ∃ s',
    start (Some p) None s = (Ok tt, s')
    ∧ _properties (self s') = JDict d
    ∧ redis_kv (env s') = redis_kv (env s)
    ∧ redis_sets (env s') = redis_sets (env s)
    ∧ transport_worker (self s') = Some n
    ∧ application_worker (self s') = Some (S n)
    ∧ workers (env s') =
        workers (env s) ++
          [ Worker cls (<["transport_name" := JStr (id (self s))]> cfg)
              (options (self s)) (Some (id (self s))) (Some p);
            Worker "junebug.workers.MessageForwardingWorker"
              (<["mo_message_url" := mo]>
                 (<["transport_name" := JStr (id (self s))]> ∅))
              (options (self s)) (Some app) (Some p) ]
    ∧ services_of (env s') p = services_of (env s) p ++ [n; S n]
    ∧ namedServices (env s') =
        <[(p, app) := S n]> (<[(p, id (self s)) := n]> (namedServices (env s)))
    ∧ attached (env s') n p (id (self s))
    ∧ attached (env s') (S n) p app
    ∧ log (env s') =
        log (env s) ++
          [ EvCreate n cls; EvName n (id (self s)); EvAttach n p;
            EvCreate (S n) "junebug.workers.MessageForwardingWorker";
            EvName (S n) app; EvAttach (S n) p ].
Proof.
  intros Hp Ht Hc Hu Hm Hf1 Hf2 n app.
  exists (started p cls cfg mo s).
  pose proof (started_frame p cls cfg mo s)
    as (S1 & S2 & S3 & S4 & S5 & S6 & S7 & S8 & S9 & S10 & S11).
  destruct (started_attached p cls cfg mo s) as [At Aa].
  split_and!; try done.
  - by eapply start_run.
  - unfold services_of at 1. rewrite S9. by rewrite lookup_insert_eq.
Qed.

(** A name that is not the disowned worker's stays. *)
Lemma detached_named_keep e w p name key x :
  attached e w p name ->
  namedServices e !! key = Some x -> x ≠ w ->
  namedServices (detached w e) !! key = Some x.
Proof.
  intros (Hn & Hp & Hnm & _) Hk Hx. unfold detached. rewrite Hp, Hn. proj.
  case_decide; [done|]. rewrite lookup_delete_ne; [done|].
  intros <-. congruence.
Qed.

(** X16. On a channel whose workers are attached [stop] succeeds and
    touches only them: a held worker keeps its class, configuration,
    options and name and loses its parent; every other worker, the store
    and the properties are as before; the parents lose no name but those
    of the held workers, and gain none. *)
Theorem stop_touches_own_workers s :
  holds_attached s ->
  ∃ s',
    stop s = (Ok tt, s')
    ∧ redis_kv (env s') = redis_kv (env s)
    ∧ redis_sets (env s') = redis_sets (env s)
    ∧ _properties (self s') = _properties (self s)
    ∧ length (workers (env s')) = length (workers (env s))
    ∧ (∀ i, transport_worker (self s) ≠ Some i ->
            application_worker (self s) ≠ Some i ->
            workers (env s') !! i = workers (env s) !! i)
    ∧ (∀ i, transport_worker (self s) = Some i
            ∨ application_worker (self s) = Some i ->
            workers (env s') !! i = set_parent None <$> workers (env s) !! i)
    ∧ (∀ key x, namedServices (env s) !! key = Some x ->
                transport_worker (self s) ≠ Some x ->
                application_worker (self s) ≠ Some x ->
                namedServices (env s') !! key = Some x)
    ∧ (∀ key, namedServices (env s) !! key = None ->
              namedServices (env s') !! key = None).
Proof.
  intros Hh. exists (stopped s).
  pose proof (holds_attached_can_stop s Hh) as Hcs.
  pose proof (stopped_frame s) as (F1 & F2 & F3 & F4 & F5 & F6).
  destruct Hh as [Ha Ht].
  assert (Hne : ∀ t a, transport_worker (self s) = Some t ->
            application_worker (self s) = Some a -> t ≠ a).
  { intros t a Et Ea ->. destruct (Ha a Ea) as [q (Hq & _)].
    destruct (Ht a Et) as [q' (Hq' & _)]. rewrite Hq in Hq'.
    injection Hq' as E. by apply application_id_ne in E. }
  split_and!; try done.
  - by apply stop_run.
  - rewrite F6.
    destruct (transport_worker (self s)), (application_worker (self s));
      simpl; by rewrite ?length_alter.
  - intros i Hi1 Hi2. rewrite F6.
    destruct (transport_worker (self s)) as [t|],
      (application_worker (self s)) as [a|]; simpl;
      rewrite ?list_lookup_alter_ne; congruence.
  - intros i Hi. rewrite F6.
    destruct (transport_worker (self s)) as [t|] eqn:Et,
      (application_worker (self s)) as [a|] eqn:Ea; simpl;
      destruct Hi as [[= ->]|[= ->]].
    + by rewrite list_lookup_alter_eq,
        list_lookup_alter_ne by (by apply not_eq_sym, (Hne i a)).
    + by rewrite list_lookup_alter_ne,
        list_lookup_alter_eq by (by apply (Hne t i)).
    + by rewrite list_lookup_alter_eq.
    + by rewrite list_lookup_alter_eq.
  - intros key x Hk Hx1 Hx2.
    destruct s as [[i pr o [t|] [a|]] e]; simpl in *.
    + destruct (Ha a eq_refl) as [q Hq]. destruct (Ht t eq_refl) as [q' Hq'].
      eapply detached_named_keep; [| |congruence].
      * apply attached_detached; [done|by eapply attached_can_disown|].
        destruct Hq as (-> & _). intros [= E].
        by apply application_id_ne in E.
      * eapply detached_named_keep; [done|done|congruence].
    + destruct (Ht t eq_refl) as [q' Hq'].
      eapply detached_named_keep; [done|done|congruence].
    + destruct (Ha a eq_refl) as [q Hq].
      eapply detached_named_keep; [done|done|congruence].
    + done.
  - intros key Hk.
    destruct s as [[i pr o [t|] [a|]] e]; simpl in *;
      repeat apply detached_named_None; done.
Qed.

(** The children of a parent after one of them was disowned. *)
Lemma detached_services_of e w p rest q :
  workers e !! w ≫= w_parent = Some p ->
  list_remove w (services_of e p) = Some rest ->
  services_of (detached w e) q =
    if decide (q = p) then rest else services_of e q.
Proof.
  intros Hp Hr. unfold services_of at 1.
  rewrite (detached_services e w p Hp), Hr. simpl. case_decide as Hq.
  - subst. by rewrite lookup_insert_eq.
  - by rewrite lookup_insert_ne.
Qed.

(** X17. [start] and then [stop] leave the service hierarchy as it was:
    the channel has no handles, the parent has the names and the children
    it had, and the two workers that were created are still there, with
    their names and without a parent.  The channel's id is not empty, its
    two names are free under the parent, and the parent lists no worker
    that does not exist yet. *)
Theorem start_then_stop s d p cls cfg mo :
  _properties (self s) = JDict d ->
  transports_get (default JNull (d !! "type")) = Ok (Some cls) ->
  d !! "config" = Some (JDict cfg) ->
  _convert_unicode (JDict cfg) = Ok (JDict cfg) ->
  d !! "mo_url" = Some mo ->
  namedServices (env s) !! (p, id (self s)) = None ->
  namedServices (env s) !! (p, "application:" +:+ id (self s)) = None ->
  id (self s) ≠ "" ->
  (∀ w, w ∈ services_of (env s) p -> w < length (workers (env s))) ->
  let n := length (workers (env s)) in
  let app := "application:" +:+ id (self s) in
  ∃ s',
    (start (Some p) None;; stop) s = (Ok tt, s')
    ∧ transport_worker (self s') = None
    ∧ application_worker (self s') = None
    ∧ namedServices (env s') = namedServices (env s)
    ∧ (∀ q, services_of (env s') q = services_of (env s) q)
    ∧ (∀ i, i < n -> workers (env s') !! i = workers (env s) !! i)
    ∧ workers (env s') !! n =
        Some (Worker cls (<["transport_name" := JStr (id (self s))]> cfg)
                (options (self s)) (Some (id (self s))) None)
    ∧ workers (env s') !! S n =
        Some (Worker "junebug.workers.MessageForwardingWorker"
                (<["mo_message_url" := mo]>
                   (<["transport_name" := JStr (id (self s))]> ∅))
                (options (self s)) (Some app) None)
    ∧ length (workers (env s')) = S (S n).
Proof.
  intros Hp Hty Hc Hu Hm Hf1 Hf2 Hid Hwf n app.
  set (s1 := started p cls cfg mo s).
  pose proof (started_frame p cls cfg mo s)
    as (S1 & S2 & S3 & S4 & S5 & S6 & S7 & S8 & S9 & S10 & S11).
  destruct (started_attached p cls cfg mo s) as [At Aa].
  rewrite <- S2 in At, Aa.
  fold s1 n app in S1, S2, S3, S4, S5, S6, S7, S8, S9, S10, S11, At, Aa.
  assert (Hrun : running p s1) by apply started_running.
  pose proof (holds_attached_can_stop s1 (running_holds_attached p s1 Hrun))
    as Hcs.
  pose proof (stopped_workers p s1 n (S n) S4 S5 At Aa)
    as (Hne & W1 & W2 & W3 & W4).
  destruct (stopped_handles s1) as [Ha0 Ht0].
  assert (Hn1 : n ∉ services_of (env s) p).
  { intros Hin%Hwf. unfold n in Hin. lia. }
  assert (Hn2 : S n ∉ services_of (env s) p).
  { intros Hin%Hwf. unfold n in Hin. lia. }
  exists (stopped s1). split_and!; try done.
  - rewrite bind_run, (start_run s d p cls cfg mo) by done.
    by apply stop_run.
  - rewrite (stopped_named p s1 Hrun) by (by rewrite S2).
    rewrite S10, S2. fold app.
    rewrite delete_insert_eq, delete_insert_ne, delete_insert_eq.
    + rewrite (delete_id _ (p, app)) by exact Hf2. by rewrite delete_id.
    + intros [= E]. by apply application_id_ne in E.
  - intros q.
    assert (E1 : env (stopped s1)
                 = detached n (detached (S n) (env s1))).
    { unfold stopped. by rewrite S4, S5. }
    assert (L1 : services_of (env s1) p = services_of (env s) p ++ [n; S n]).
    { unfold services_of at 1. by rewrite S9, lookup_insert_eq. }
    assert (R1 : list_remove (S n) (services_of (env s1) p)
                 = Some (services_of (env s) p ++ [n])).
    { rewrite L1.
      replace (services_of (env s) p ++ [n; S n])
        with ((services_of (env s) p ++ [n]) ++ [S n])
        by (by rewrite <- (assoc_L (++))).
      rewrite (list_remove_tail (S n) (services_of (env s) p ++ [n]) [])
        by (rewrite elem_of_app, list_elem_of_singleton; intros [?|?];
            [done|lia]).
      by rewrite (right_id_L [] (++)). }
    assert (At' : attached (detached (S n) (env s1)) n p (id (self s1))).
    { apply attached_detached; [done|by eapply attached_can_disown|].
      destruct Aa as (-> & _). intros [= E]. by apply application_id_ne in E. }
    destruct Aa as (_ & Pa & _). destruct At' as (_ & Pt & _).
    rewrite E1.
    rewrite (detached_services_of _ n p (services_of (env s) p)); [| done |].
    + case_decide as Hq; [by subst|].
      rewrite (detached_services_of _ (S n) p _ q Pa R1).
      rewrite decide_False by done.
      unfold services_of. by rewrite S9, lookup_insert_ne.
    + rewrite (detached_services_of _ (S n) p _ p Pa R1).
      rewrite decide_True by done.
      rewrite (list_remove_tail n (services_of (env s) p) []) by done.
      by rewrite (right_id_L [] (++)).
  - intros i Hi. rewrite W4 by lia. rewrite S8. by apply lookup_app_l.
  - rewrite W2, S8. unfold n. by rewrite lookup_tail0'.
  - rewrite W3, S8. unfold n. by rewrite lookup_tail1'.
  - rewrite W1, S8, length_app. simpl. unfold n. lia.
Qed.

(** X22. [stop] does not tolerate a handle to a worker that has no
    parent (one that another channel object has stopped already): the
    first such worker makes it raise [AttributeError], and then nothing is
    changed and no handle is cleared. *)
Theorem stop_stale_handle s :
  (∀ a, application_worker (self s) = Some a ->
        workers (env s) !! a ≫= w_parent = None ->
        stop s = (Raise AttributeError, s))
  ∧ (∀ t, application_worker (self s) = None ->
          transport_worker (self s) = Some t ->
          workers (env s) !! t ≫= w_parent = None ->
          stop s = (Raise AttributeError, s)).
Proof.
  split.
  - intros a Ha Hp. unfold stop, _stop_application. exec. rewrite Ha. exec.
    by rewrite (disownServiceParent_no_parent s a Hp).
  - intros t Ha Ht Hp. unfold stop, _stop_application, _stop_transport. exec.
    rewrite Ha. exec. rewrite Ht. exec.
    by rewrite (disownServiceParent_no_parent s t Hp).
Qed.

End services.
Section store.
Set Default Proof Using "Type".
Context {raw : Type}.
Variable dumps : json -> raw.
Variable loads : raw -> option json.
Variable default_vumi_options : gmap string json.

Implicit Types (s : state (raw := raw)) (e : world (raw := raw)).

(** X9. [save] is an upsert: it writes the serialized properties under the
    channel's own [properties] key and adds the id to the [channels] set,
    leaving every other key of the store, the channel, the workers and the
    supervisor as they were; saving twice is the same as saving once, and
    [get_all] afterwards lists the id together with the ids it listed
    before. *)
Theorem save_upsert s :
  ∃ s1 ids,
    save dumps s = (Ok tt, s1)
    ∧ (save dumps;; save dumps) s = (Ok tt, s1)
    ∧ self s1 = self s
    ∧ workers (env s1) = workers (env s)
    ∧ log (env s1) = log (env s)
    ∧ redis_kv (env s1) !! (id (self s), "properties")
      = Some (dumps (_properties (self s)))
    ∧ (∀ i k, (i, k) ≠ (id (self s), "properties") ->
         redis_kv (env s1) !! (i, k) = redis_kv (env s) !! (i, k))
    ∧ get_all (env s) = (Ok ids, env s)
    ∧ get_all (env s1) = (Ok ({[id (self s)]} ∪ ids), env s1).
Proof.
  exists (saved dumps s), (default ∅ (redis_sets (env s) !! "channels")).
  destruct s as [c e]. split_and!; [| |done|done|done| | |done|].
  - apply save_run.
  - rewrite (run_bind_ok _ _ _ _ _ (save_run dumps _)), save_run.
    f_equal. unfold saved. simpl. f_equal. unfold with_sets, with_kv. simpl.
    rewrite insert_insert_eq, lookup_insert_eq, insert_insert_eq. simpl.
    do 2 f_equal. set_solver.
  - simpl. apply lookup_insert_eq.
  - intros i k Hne. simpl. by rewrite lookup_insert_ne.
  - unfold get_all, redis_smembers, mbind, M_bind, gets. simpl.
    by rewrite lookup_insert_eq.
Qed.

(** X10. [delete] followed by [save] leaves what [save] alone leaves;
    deleting twice is deleting once; and deleting a channel that has no
    record changes nothing. *)
Theorem delete_then_save s :
  (delete;; save dumps) s = save dumps s
  ∧ (delete;; delete) s = delete s
  ∧ (redis_kv (env s) !! (id (self s), "properties") = None ->
     delete s = (Ok tt, s)).
Proof.
  destruct s as [c [kv sets ws sv nm lg]]. split_and!.
  - rewrite (run_bind_ok _ _ _ _ _ (delete_run _)), !save_run.
    unfold saved, with_sets, with_kv. simpl. by rewrite insert_delete_eq.
  - rewrite (run_bind_ok _ _ _ _ _ (delete_run _)), !delete_run.
    unfold with_kv. simpl. by rewrite delete_delete_eq.
  - simpl. intros Hk. rewrite delete_run. unfold with_kv. simpl.
    by rewrite delete_id.
Qed.

(** X18. [update] does not validate before it acts: with a [config] entry
    that is not [None], on a channel that holds a transport worker and
    whose workers are attached, when the [type] of the merged properties
    is not registered, it raises [InvalidChannelType] only after it has
    merged, saved and stopped.  The channel is left with the merged
    properties, stored, with no handles, its former transport worker
    without a parent and no worker created. *)
Theorem update_invalid_type_leaves_stopped s d p v w :
  _properties (self s) = JDict d ->
  p !! "config" = Some v -> v ≠ JNull ->
  transport_worker (self s) = Some w ->
  holds_attached s ->
  transports_get (default JNull ((p ∪ d) !! "type")) = Ok None ->
  ∃ s',
    update dumps p s =
      (Raise (InvalidChannelType (default JNull ((p ∪ d) !! "type"))
                ["telnet"; "xmpp"]), s')
    ∧ _properties (self s') = JDict (p ∪ d)
    ∧ redis_kv (env s') !! (id (self s), "properties")
      = Some (dumps (JDict (p ∪ d)))
    ∧ transport_worker (self s') = None
    ∧ application_worker (self s') = None
    ∧ length (workers (env s')) = length (workers (env s))
    ∧ workers (env s') !! w ≫= w_parent = None
    ∧ workers (env s') !! w ≫= w_name = Some (id (self s))
    ∧ log (env s') =
        log (env s)
        ++ from_option (fun a => [EvDetach a]) [] (application_worker (self s))
        ++ [EvDetach w].
Proof.
  intros Hp Hc Hv Hw Hh Ht.
  assert (Hn : not_None (default JNull (p !! "config")) = true).
  { rewrite Hc. simpl. by destruct v. }
  pose proof (merged_saved_frame dumps p d s)
    as (F1 & F2 & F3 & F4 & F5 & F6 & F7 & F8 & F9 & F10 & F11).
  set (s1 := merged_saved dumps p d s) in *.
  assert (Hh1 : holds_attached s1).
  { destruct Hh as [Ha Hb]. split.
    - intros a Ea. rewrite F4 in Ea. destruct (Ha a Ea) as [q Hq].
      exists q. rewrite F2. by apply (attached_ext (env s)).
    - intros t Et. rewrite F3 in Et. destruct (Hb t Et) as [q Hq].
      exists q. rewrite F2. by apply (attached_ext (env s)). }
  pose proof (holds_attached_can_stop s1 Hh1) as Hcs.
  pose proof (stopped_frame s1) as (G1 & G2 & G3 & G4 & G5 & G6).
  destruct (stopped_handles s1) as [Ha0 Ht0].
  exists (stopped s1).
  split_and!.
  - rewrite (update_run dumps s d p Hp), Hn. simpl. fold s1.
    rewrite !bind_assoc_run, (run_bind_ok _ _ _ _ _ (gets_run _ _)).
    cbv beta. rewrite F3, Hw. unfold parent_of.
    rewrite !bind_assoc_run, (run_bind_ok _ _ _ _ _ (gets_run _ _)).
    cbv beta.
    rewrite !bind_assoc_run, (run_bind_ok _ _ _ _ _ (stop_run s1 Hcs)).
    cbv beta.
    erewrite run_bind_raise; [reflexivity|].
    apply start_invalid_run; [by rewrite G1|done].
  - by rewrite G1.
  - by rewrite G4.
  - exact Ht0.
  - exact Ha0.
  - rewrite G6, F5.
    destruct (transport_worker (self s1)), (application_worker (self s1));
      simpl; by rewrite ?length_alter.
  - apply stopped_parent. right. by rewrite F3.
  - rewrite G6, F3, F5, Hw.
    destruct Hh as [_ Hb]. destruct (Hb w Hw) as [q (Hq & _)].
    destruct (application_worker (self s1)); simpl;
      by rewrite !name_set_parent.
  - by rewrite (stopped_log s1 Hcs), F3, F4, F6, Hw.
Qed.

(** X19. [from_id] finds a started channel again: after [save] and a
    [start] with valid properties and the two names free under the
    parent, [from_id] with that parent returns a channel with the same id,
    properties and worker handles, and changes nothing. *)
Theorem from_id_finds_started s d p cls cfg mo amqp :
  (∀ j, loads (dumps j) = Some j) ->
  _properties (self s) = JDict d ->
  transports_get (default JNull (d !! "type")) = Ok (Some cls) ->
  d !! "config" = Some (JDict cfg) ->
  _convert_unicode (JDict cfg) = Ok (JDict cfg) ->
  d !! "mo_url" = Some mo ->
  namedServices (env s) !! (p, id (self s)) = None ->
  namedServices (env s) !! (p, "application:" +:+ id (self s)) = None ->
  ∃ s' c,
    (save dumps;; start (Some p) None) s = (Ok tt, s')
    ∧ from_id loads default_vumi_options amqp (id (self s)) p (env s')
      = (Ok c, env s')
    ∧ id c = id (self s')
    ∧ _properties c = _properties (self s')
    ∧ transport_worker c = transport_worker (self s')
    ∧ application_worker c = application_worker (self s')
    ∧ transport_worker c = Some (length (workers (env s))).
Proof.
  intros Hld Hp Ht Hc Hu Hm Hf1 Hf2.
  set (s1 := saved dumps s).
  assert (Hp1 : _properties (self s1) = JDict d) by by destruct s.
  assert (Hid : id (self s1) = id (self s)) by by destruct s.
  assert (Hws : workers (env s1) = workers (env s)) by by destruct s.
  assert (Hnm : namedServices (env s1) = namedServices (env s))
    by by destruct s.
  assert (Hkv : redis_kv (env s1) !! (id (self s), "properties")
                = Some (dumps (JDict d))).
  { destruct s as [c e]. simpl in *. rewrite Hp. apply lookup_insert_eq. }
  pose proof (started_frame p cls cfg mo s1)
    as (S1 & S2 & S3 & S4 & S5 & S6 & S7 & S8 & S9 & S10 & S11).
  pose proof (application_id_ne (id (self s))) as Hne.
  eexists (started p cls cfg mo s1), _.
  split_and!.
  - rewrite (run_bind_ok _ _ _ _ _ (save_run dumps s)).
    apply (start_run _ d); rewrite ?Hid, ?Hnm; done.
  - rewrite (from_id_stored loads default_vumi_options _ amqp _ p
               (dumps (JDict d))) by (by rewrite S6).
    rewrite Hld, S10, Hid.
    rewrite lookup_insert_ne by (intros [= E]; by apply Hne).
    rewrite lookup_insert_eq, lookup_insert_eq. reflexivity.
  - by rewrite S2, Hid.
  - by rewrite S1, Hp1.
  - by rewrite S4.
  - by rewrite S5.
  - by rewrite Hws.
Qed.

(** X20. What [from_id] does with a stored record: text that does not
    parse raises [ValueError]; a parent that has no worker named as the
    channel raises [KeyError] for the id, one that has none under the
    application's name [KeyError] for that name; otherwise the channel
    returned has the id, the parsed properties, the [amqp_config] over the
    default options, and as handles the two workers the parent has under
    the names.  The world is not changed, whatever the outcome. *)
Theorem from_id_handles e amqp i parent r :
  redis_kv e !! (i, "properties") = Some r ->
  let app := "application:" +:+ i in
  (loads r = None ->
   from_id loads default_vumi_options amqp i parent e = (Raise ValueError, e))
  ∧ (∀ j, loads r = Some j ->
       (namedServices e !! (parent, i) = None ->
        from_id loads default_vumi_options amqp i parent e
        = (Raise (KeyError i), e))
       ∧ (is_Some (namedServices e !! (parent, i)) ->
          namedServices e !! (parent, app) = None ->
          from_id loads default_vumi_options amqp i parent e
          = (Raise (KeyError app), e))
       ∧ (∀ t a,
            namedServices e !! (parent, i) = Some t ->
            namedServices e !! (parent, app) = Some a ->
            from_id loads default_vumi_options amqp i parent e
            = (Ok (Channel i j (amqp ∪ default_vumi_options) (Some t) (Some a)),
               e))).
Proof.
  intros Hr app. rewrite (from_id_stored loads default_vumi_options _ _ _ _ _ Hr).
  split.
  - by intros ->.
  - intros j ->. split_and!.
    + by intros ->.
    + intros [t ->] Ha. fold app. by rewrite Ha.
    + intros t a -> Ha. fold app. by rewrite Ha.
Qed.

End store.


(** X8, witness. *)
Lemma status_reads_only_witness :
  (∃ r, status fresh_state = (Ok (JDict r), fresh_state)
        ∧ r !! "id" = Some (JStr "c1")
        ∧ r !! "status" = Some (JDict ∅)
        ∧ r !! "type" = Some (JStr "telnet"))
  ∧ status list_valued_state = (Raise TypeError, list_valued_state).
Proof.
  destruct (status_reads_only fresh_state) as [A _].
  destruct (status_reads_only list_valued_state) as [_ B].
  split.
  - destruct (A sample_properties eq_refl) as (r & A1 & A2 & A3 & A4).
    exists r. split_and!; [exact A1|exact A2|exact A3|].
    rewrite A4 by discriminate. vm_compute. reflexivity.
  - apply B. discriminate.
Defined.

(** X10, witness. *)
Lemma delete_then_save_witness :
  (delete;; save plain_dumps) running_state = save plain_dumps running_state
  ∧ delete fresh_state = (Ok tt, fresh_state).
Proof.
  split.
  - exact (proj1 (delete_then_save plain_dumps running_state)).
  - apply (proj2 (proj2 (delete_then_save plain_dumps fresh_state))).
    vm_compute. reflexivity.
Defined.

(** X11, witness. *)
Lemma transport_config_cases_witness :
  _transport_config no_config_state = (Raise (KeyError "config"), no_config_state)
  ∧ _transport_config unicode_state = (Raise UnicodeEncodeError, unicode_state)
  ∧ ∃ r, _transport_config fresh_state = (Ok r, fresh_state)
         ∧ r !! "transport_name" = Some (JStr "c1").
Proof.
  split_and!.
  - apply (proj1 (transport_config_cases no_config_state no_config_properties
                    eq_refl)).
    vm_compute. reflexivity.
  - apply (proj1 (proj2 (transport_config_cases unicode_state
                           unicode_properties eq_refl))
             (JDict (<["host" := JStr e_acute]> ∅))).
    + vm_compute. reflexivity.
    + vm_compute. reflexivity.
  - destruct (proj2 (proj2 (proj2 (transport_config_cases fresh_state
                                     sample_properties eq_refl))) ∅)
      as (r & A1 & A2 & _).
    + vm_compute. reflexivity.
    + vm_compute. reflexivity.
    + exists r. split; [exact A1|exact A2].
Defined.

(** X12, witness. *)
Lemma start_without_config_witness :
  start (Some 0) None no_config_state = (Raise (KeyError "config"), no_config_state)
  ∧ start (Some 0) None unicode_state = (Raise UnicodeEncodeError, unicode_state).
Proof.
  split.
  - apply (proj1 (start_without_config no_config_state no_config_properties
                    (Some 0) "vumi.transports.telnet.TelnetServerTransport"
                    eq_refl ltac:(vm_compute; reflexivity))).
    vm_compute. reflexivity.
  - apply (proj1 (proj2 (start_without_config unicode_state unicode_properties
                           (Some 0) "vumi.transports.telnet.TelnetServerTransport"
                           eq_refl ltac:(vm_compute; reflexivity)))
             (JDict (<["host" := JStr e_acute]> ∅))).
    + vm_compute. reflexivity.
    + vm_compute. reflexivity.
Defined.

(** X13, witness. *)
Lemma start_without_mo_url_witness :
  ∃ s', start (Some 0) None no_mo_url_state = (Raise (KeyError "mo_url"), s')
        ∧ transport_worker (self s') = Some 0
        ∧ application_worker (self s') = None
        ∧ length (workers (env s')) = 1
        ∧ attached (env s') 0 0 "c5".
Proof.
  destruct (start_without_mo_url no_mo_url_state no_mo_url_properties 0
              "vumi.transports.telnet.TelnetServerTransport" ∅)
    as (s' & A1 & A2 & A3 & A4 & A5 & _).
  - reflexivity.
  - vm_compute. reflexivity.
  - vm_compute. reflexivity.
  - vm_compute. reflexivity.
  - vm_compute. reflexivity.
  - vm_compute. reflexivity.
  - exists s'. split_and!; [exact A1|exact A2|exact A3| |exact A5].
    rewrite A4. reflexivity.
Defined.


(** X15, witness. *)
Lemma start_creates_both_witness :
  ∃ s', start (Some 0) None fresh_state = (Ok tt, s')
        ∧ transport_worker (self s') = Some 0
        ∧ application_worker (self s') = Some 1
        ∧ attached (env s') 0 0 "c1"
        ∧ attached (env s') 1 0 "application:c1"
        ∧ log (env s')
          = [ EvCreate 0 "vumi.transports.telnet.TelnetServerTransport";
              EvName 0 "c1"; EvAttach 0 0;
              EvCreate 1 "junebug.workers.MessageForwardingWorker";
              EvName 1 "application:c1"; EvAttach 1 0 ].
Proof.
  destruct (start_creates_both fresh_state sample_properties 0
              "vumi.transports.telnet.TelnetServerTransport" ∅ (JStr "http://x"))
    as (s' & A1 & _ & _ & _ & A2 & A3 & _ & _ & _ & A4 & A5 & A6).
  - reflexivity.
  - vm_compute. reflexivity.
  - vm_compute. reflexivity.
  - vm_compute. reflexivity.
  - vm_compute. reflexivity.
  - vm_compute. reflexivity.
  - vm_compute. reflexivity.
  - exists s'.
    split_and!; [exact A1|exact A2|exact A3|exact A4|exact A5|exact A6].
Defined.

(** X16, witness. *)
Lemma stop_touches_own_workers_witness :
  ∃ s', stop running_state = (Ok tt, s')
        ∧ length (workers (env s')) = 2
        ∧ workers (env s') !! 0 ≫= w_parent = None
        ∧ namedServices (env s') !! (1, "other") = None.
Proof.
  destruct (stop_touches_own_workers running_state running_state_holds)
    as (s' & A1 & _ & _ & _ & A2 & _ & A3 & _ & A4).
  exists s'. split_and!; [exact A1|exact A2| |].
  - rewrite A3 by (left; reflexivity). reflexivity.
  - apply A4. vm_compute. reflexivity.
Defined.

(** X17, witness. *)
Lemma start_then_stop_witness :
  ∃ s', (start (Some 0) None;; stop) fresh_state = (Ok tt, s')
        ∧ transport_worker (self s') = None
        ∧ application_worker (self s') = None
        ∧ namedServices (env s') = ∅
        ∧ services_of (env s') 0 = []
        ∧ length (workers (env s')) = 2.
Proof.
  destruct (start_then_stop fresh_state sample_properties 0
              "vumi.transports.telnet.TelnetServerTransport" ∅ (JStr "http://x"))
    as (s' & A1 & A2 & A3 & A4 & A5 & _ & _ & _ & A6).
  - reflexivity.
  - vm_compute. reflexivity.
  - vm_compute. reflexivity.
  - vm_compute. reflexivity.
  - vm_compute. reflexivity.
  - vm_compute. reflexivity.
  - vm_compute. reflexivity.
  - discriminate.
  - intros w Hw. vm_compute in Hw. inversion Hw.
  - exists s'. split_and!; [exact A1|exact A2|exact A3|exact A4| |exact A6].
    rewrite A5. reflexivity.
Defined.

(** The running [smpp] channel holds its two workers, attached. *)
Lemma running_smpp_state_holds : holds_attached running_smpp_state.
Proof.
  split; intros w Hw; vm_compute in Hw; injection Hw as <-; exists 0;
    apply (bool_decide_unpack _); vm_compute; exact I.
Defined.

(** X18, witness. *)
Lemma update_invalid_type_leaves_stopped_witness :
  ∃ s', update plain_dumps new_config running_smpp_state
        = (Raise (InvalidChannelType (JStr "smpp") ["telnet"; "xmpp"]), s')
        ∧ _properties (self s') = JDict (new_config ∪ smpp_properties)
        ∧ transport_worker (self s') = None
        ∧ application_worker (self s') = None
        ∧ workers (env s') !! 0 ≫= w_parent = None
        ∧ length (workers (env s')) = 2.
Proof.
  destruct (update_invalid_type_leaves_stopped plain_dumps running_smpp_state
              smpp_properties new_config (JDict (<["port" := JNum 23]> ∅)) 0)
    as (s' & A1 & A2 & _ & A3 & A4 & A5 & A6 & _).
  - reflexivity.
  - vm_compute. reflexivity.
  - discriminate.
  - reflexivity.
  - exact running_smpp_state_holds.
  - vm_compute. reflexivity.
  - exists s'. split_and!; [|exact A2|exact A3|exact A4|exact A6|].
    + rewrite A1. vm_compute. reflexivity.
    + rewrite A5. reflexivity.
Defined.

(** X19, witness. *)
Lemma from_id_finds_started_witness :
  ∃ s' c,
    (save plain_dumps;; start (Some 0) None) fresh_state = (Ok tt, s')
    ∧ from_id plain_loads ∅ ∅ "c1" 0 (env s') = (Ok c, env s')
    ∧ _properties c = _properties (self s')
    ∧ transport_worker c = Some 0
    ∧ application_worker c = application_worker (self s').
Proof.
  destruct (from_id_finds_started plain_dumps plain_loads ∅ fresh_state
              sample_properties 0
              "vumi.transports.telnet.TelnetServerTransport" ∅ (JStr "http://x") ∅)
    as (s' & c & A1 & A2 & _ & A3 & _ & A4 & A5).
  - intros j. reflexivity.
  - reflexivity.
  - vm_compute. reflexivity.
  - vm_compute. reflexivity.
  - vm_compute. reflexivity.
  - vm_compute. reflexivity.
  - vm_compute. reflexivity.
  - vm_compute. reflexivity.
  - exists s', c. split_and!; [exact A1|exact A2|exact A3|exact A5|exact A4].
Defined.

(** X20, witness. *)
Lemma from_id_handles_witness :
  from_id plain_loads ∅ ∅ "c1" 0 (env (saved plain_dumps running_state))
  = (Ok (Channel "c1" (JDict sample_properties) (∅ ∪ ∅) (Some 0) (Some 1)),
     env (saved plain_dumps running_state))
  ∧ from_id plain_loads ∅ ∅ "c1" 0 (env (saved plain_dumps fresh_state))
    = (Raise (KeyError "c1"), env (saved plain_dumps fresh_state)).
Proof.
  split.
  - destruct (from_id_handles plain_loads ∅
                (env (saved plain_dumps running_state)) ∅ "c1" 0
                (JDict sample_properties)) as [_ A].
    + vm_compute. reflexivity.
    + destruct (A (JDict sample_properties) eq_refl) as (_ & _ & A3).
      apply (A3 0 1); vm_compute; reflexivity.
  - destruct (from_id_handles plain_loads ∅
                (env (saved plain_dumps fresh_state)) ∅ "c1" 0
                (JDict sample_properties)) as [_ A].
    + vm_compute. reflexivity.
    + destruct (A (JDict sample_properties) eq_refl) as (A1 & _).
      apply A1. vm_compute. reflexivity.
Defined.

(** X22, witness. *)
Lemma stop_stale_handle_witness :
  application_worker (self stale_state) = Some 1
  ∧ stop stale_state = (Raise AttributeError, stale_state).
Proof.
  split; [reflexivity|].
  apply (proj1 (stop_stale_handle stale_state) 1).
  - reflexivity.
  - vm_compute. reflexivity.
Defined.

End ChanExtra.
